(** * The sunset-hour pipeline of [main.go]

    A shallow embedding of the Go program: the record types, the JSON
    decoding of the input into [Structure] values, the lookup performed by
    a worker, the three kinds of goroutines (data monitor, result monitor,
    workers) with the channels between them as an interleaving transition
    system, and the report writer.

    Go's [int] is 64 bits wide.  The only integer operations of the program
    are comparisons, a decrement of a positive counter and [len]; none of
    them can wrap, so integers are [Z] and no wrap-around is written out.
    Text is [string]; a line feed is the character [010]. *)

From Stdlib Require Import ZArith String Ascii List Permutation Sorted Lia.
From Stdlib Require Import DecimalString DecimalPos DecimalZ.
From stdpp Require Import base list strings.

(** ** The Go standard library, as far as the program calls it *)

(** A JSON value as the scanner of [encoding/json] hands it to the decoder:
    a number keeps its text, an object the order of its members. *)
#[local] Unset Elimination Schemes.
Inductive json :=
| JNull
| JBool (b : bool)
| JNumber (text : string)
| JString (s : string)
| JArray (items : list json)
| JObject (members : list (string * json)).
#[local] Set Elimination Schemes.

(** A [float64] is kept as its 64 bits (IEEE 754 binary64).  The program
    never computes with one: it stores, copies and prints them. *)
Definition float64 : Type := Z.
Definition float64_zero : float64 := 0%Z.

(** The functions of Go's library that the program calls and whose bodies
    are not part of the repository.  Nothing is assumed about them here;
    the one contract that is needed (that [sort.Slice] sorts) is the class
    [SortSliceSpec] below. *)
Class GoLib := {
  (** [strconv.FormatFloat f 'f' prec 64], which is what the verb [%.<prec>f]
      prints *)
  FormatFloat : float64 -> nat -> string;
  (** [strconv.ParseFloat] on the text of a JSON number *)
  ParseFloat : string -> option float64;
  (** [json.NewDecoder(file).Decode]: the scanner, which reads the first JSON
      value of the text or reports a syntax error; filling the Go value from
      the scanned JSON value is [decode_slice] below *)
  json_scan : string -> json + string;
  (** [time.Time], [time.Parse layout value] (the error as its message) and
      the method [Hour] *)
  time_Time : Type;
  time_Parse : string -> string -> time_Time + string;
  time_Hour : time_Time -> Z;
  (** [sort.Slice data less]; the closure of the program compares the two
      elements found at the indices it is given, so [less] is taken on
      elements *)
  sort_Slice : forall A : Type, (A -> A -> bool) -> list A -> list A
}.

(** What the documentation of [sort.Slice] promises for a [less] that meets
    its requirements ("if both Less(i, j) and Less(j, k) are true, then
    Less(i, k) must be true as well; if both are false, then Less(i, k) must
    be false as well"): the slice is permuted and ends up in an order where
    no element is less than an earlier one.  "The sort is not guaranteed to
    be stable", so nothing is said about elements that compare equal. *)
Definition ascending {A : Type} (less : A -> A -> bool) : list A -> Prop :=
  StronglySorted (fun a b => less b a = false).

Class SortSliceSpec `{GoLib} : Prop := {
  sort_Slice_perm :
    forall (A : Type) (less : A -> A -> bool) (l : list A),
      Permutation (sort_Slice A less l) l;
  sort_Slice_ascending :
    forall (A : Type) (less : A -> A -> bool) (l : list A),
      (forall a, less a a = false) ->
      (forall a b c, less a b = true -> less b c = true -> less a c = true) ->
      (forall a b c, less a b = false -> less b c = false -> less a c = false) ->
      ascending less (sort_Slice A less l)
}.

Definition LF : string := String "010"%char EmptyString.

Section Program.
Context `{GoLib}.

(** ** Universal types *)

Record Structure := mkStructure {
  Date : string;
  Lat : float64;
  Lng : float64;
  Hour : Z
}.

Record ComputedStructure := mkComputedStructure {
  CDate : string;
  CLat : float64;
  CLng : float64;
  CHour : Z;
  SunsetHour : Z
}.

Record apiResponse := mkApiResponse {
  Results_Sunset : string;
  Status : string
}.

(** ** [fmt]: the verbs the program uses *)

Inductive operand :=
| OpString (s : string)
| OpFloat (f : float64)
| OpInt (i : Z).

(** [%d] of an [int]: an optional minus sign and decimal digits. *)
Definition itoa (i : Z) : string := NilZero.string_of_int (Z.to_int i).

Definition digit_of (c : ascii) : option nat :=
  let n := nat_of_ascii c in
  if (48 <=? n)%nat && (n <=? 57)%nat then Some (n - 48)%nat else None.

(** One verb applied to one operand.  [%s] and [%v] print a string (or the
    message of an error) as it is, [%d] an integer, [%f] a float with the
    given number of decimals.  Every call in the program gives each verb an
    operand of its type; for any other pairing Go prints a [%!verb(type=value)]
    note, which is abbreviated here. *)
Definition format_verb (v : ascii) (prec : nat) (a : operand) : string :=
  match a with
  | OpString s =>
      if (v =? "s")%char || (v =? "v")%char then s else "%!" +:+ String v "(string)"
  | OpInt i =>
      if (v =? "d")%char || (v =? "v")%char then itoa i else "%!" +:+ String v "(int)"
  | OpFloat f =>
      if (v =? "f")%char then FormatFloat f prec else "%!" +:+ String v "(float64)"
  end.

Definition emit (v : ascii) (prec : nat) (args : list operand)
    (k : list operand -> string) : string :=
  match args with
  | [] => "%!" +:+ String v "(MISSING)" +:+ k []
  | a :: args' => format_verb v prec a +:+ k args'
  end.

(** [fmt.Sprintf]: text is copied, [%<verb>] and [%.<digit><verb>] consume
    the next operand; the default precision of [%f] is 6. *)
Fixpoint Sprintf (format : string) (args : list operand) : string :=
  match format with
  | EmptyString => EmptyString
  | String c rest =>
      if (c =? "%")%char then
        match rest with
        | EmptyString => "%!(NOVERB)"
        | String v rest1 =>
            if (v =? ".")%char then
              match rest1 with
              | String d (String v2 rest2) =>
                  match digit_of d with
                  | Some prec => emit v2 prec args (Sprintf rest2)
                  | None => "%!" +:+ String d "(BADPREC)" +:+ Sprintf rest2 args
                  end
              | _ => "%!(NOVERB)"
              end
            else emit v 6 args (Sprintf rest1)
        end
      else String c (Sprintf rest args)
  end.

(** ** [FindSunsetHour] *)

(** What [client.Get] followed by decoding the body can give: the request
    fails (network error, the 10 s timeout), the body is not the expected
    JSON, or an [apiResponse] is decoded. *)
Inductive HttpOutcome :=
| GetFailed (err : string)
| DecodeFailed (err : string)
| Decoded (result : apiResponse).

Definition apiURL (data : Structure) : string :=
  Sprintf "https://api.sunrise-sunset.org/json?lat=%f&lng=%f&date=%s"
    [OpFloat (Lat data); OpFloat (Lng data); OpString (Date data)].

(** The Go function returns [(int, error)]; the error is [None] for [nil]. *)
Definition FindSunsetHour (client_Get : string -> HttpOutcome) (data : Structure)
    : Z * option string :=
  match client_Get (apiURL data) with
  | GetFailed err => ((-1)%Z, Some err)
  | DecodeFailed err => ((-1)%Z, Some err)
  | Decoded result =>
      if negb (String.eqb (Status result) "OK") then
        ((-1)%Z, Some (Sprintf "api returned status: %s" [OpString (Status result)]))
      else
        match time_Parse "3:04:05 PM" (Results_Sunset result) with
        | inr err => ((-1)%Z, Some err)
        | inl sunsetTime => (time_Hour sunsetTime, None)
        end
  end.

(** ** One iteration of a worker, after it has received [data] *)

(** Where a worker stands in [InitWorker]. *)
Inductive Worker :=
| WRequest                          (* at [requestDataChannel <- true] *)
| WReceive                          (* at [<-responseDataChannel] *)
| WLookup (data : Structure)        (* at the call of [FindSunsetHour] *)
| WSubmit (c : ComputedStructure)   (* at [resultMonitorSendDataChannel <- ...] *)
| WStatus                           (* at [workerStatusChannel <- true] *)
| WExit.                            (* returned *)

Definition computed (data : Structure) (sunsetHour : Z) : ComputedStructure :=
  {| CDate := Date data; CLat := Lat data; CLng := Lng data;
     CHour := Hour data; SunsetHour := sunsetHour |}.

(** Lines 183 to 199: an error is printed and the loop continues, a sunset
    hour other than [data.Hour] continues, otherwise the worker goes on to
    send the computed structure. *)
Definition worker_body (client_Get : string -> HttpOutcome) (data : Structure) : Worker :=
  let '(sunsetHour, err) := FindSunsetHour client_Get data in
  match err with
  | Some _ => WRequest
  | None =>
      if negb (sunsetHour =? Hour data)%Z then WRequest
      else WSubmit (computed data sunsetHour)
  end.

(** ** [writeOutputToFile] *)

Inductive CreateOutcome :=
| CreateFailed (err : string)
| Created.

(** Either [log.Fatalf] ends the process, or the file holds [content] when
    the function returns.  The results of [Fprintf] are not looked at by the
    program. *)
Inductive Written :=
| Fatal (msg : string)
| Content (content : string).

Definition line_format : string :=
  "Date: %s Lat: %.2f Lng: %.2f Guess Hour: %d Sunset Hour: %d" +:+ LF.

Definition count_format : string := "Count: %d" +:+ LF.

Definition Fprintf (file : string) (format : string) (args : list operand) : string :=
  file +:+ Sprintf format args.

Definition writeOutputToFile (create : CreateOutcome)
    (computedData : list ComputedStructure) : Written :=
  match create with
  | CreateFailed err =>
      Fatal (Sprintf "Error creating output file: %v" [OpString err])
  | Created =>
      let outputFile :=
        fold_left
          (fun file value =>
             Fprintf file line_format
               [OpString (CDate value); OpFloat (CLat value); OpFloat (CLng value);
                OpInt (CHour value); OpInt (SunsetHour value)])
          computedData EmptyString in
      Content (Fprintf outputFile count_format
                 [OpInt (Z.of_nat (length computedData))])
  end.

(** ** [ReadJSON] *)

(** [Decode(&inputData)] with [inputData] of type [[]Structure]: how
    [encoding/json] fills a slice of this struct from a scanned value.  The
    struct has no tags, so a member is stored in the field whose name equals
    its key up to the case of letters, members with other keys are skipped,
    [null] leaves the target as it is, and a value of the wrong JSON type,
    a number that is not the text of an [int] or that [ParseFloat] refuses,
    is an error. *)
Definition lower (c : ascii) : ascii :=
  let n := nat_of_ascii c in
  if (65 <=? n)%nat && (n <=? 90)%nat then ascii_of_nat (n + 32) else c.

Fixpoint fold_name (s : string) : string :=
  match s with
  | EmptyString => EmptyString
  | String c rest => String (lower c) (fold_name rest)
  end.

Definition same_field (key name : string) : bool :=
  String.eqb (fold_name key) (fold_name name).

(** [strconv.ParseInt text 10 64] on the text of a JSON number. *)
Definition ParseInt (text : string) : option Z :=
  match NilZero.int_of_string text with
  | Some d =>
      let i := Z.of_int d in
      if (- 2 ^ 63 <=? i)%Z && (i <? 2 ^ 63)%Z then Some i else None
  | None => None
  end.

Definition zero_Structure : Structure :=
  {| Date := EmptyString; Lat := float64_zero; Lng := float64_zero; Hour := 0%Z |}.

Definition type_error (value field : string) : string :=
  "json: cannot unmarshal " +:+ value +:+ " into Go struct field Structure." +:+ field.

Definition set_field (key : string) (value : json) (st : Structure)
    : Structure + string :=
  if same_field key "Date" then
    match value with
    | JNull => inl st
    | JString s => inl {| Date := s; Lat := Lat st; Lng := Lng st; Hour := Hour st |}
    | _ => inr (type_error "value" "Date of type string")
    end
  else if same_field key "Lat" then
    match value with
    | JNull => inl st
    | JNumber text =>
        match ParseFloat text with
        | Some f => inl {| Date := Date st; Lat := f; Lng := Lng st; Hour := Hour st |}
        | None => inr (type_error ("number " +:+ text) "Lat of type float64")
        end
    | _ => inr (type_error "value" "Lat of type float64")
    end
  else if same_field key "Lng" then
    match value with
    | JNull => inl st
    | JNumber text =>
        match ParseFloat text with
        | Some f => inl {| Date := Date st; Lat := Lat st; Lng := f; Hour := Hour st |}
        | None => inr (type_error ("number " +:+ text) "Lng of type float64")
        end
    | _ => inr (type_error "value" "Lng of type float64")
    end
  else if same_field key "Hour" then
    match value with
    | JNull => inl st
    | JNumber text =>
        match ParseInt text with
        | Some i => inl {| Date := Date st; Lat := Lat st; Lng := Lng st; Hour := i |}
        | None => inr (type_error ("number " +:+ text) "Hour of type int")
        end
    | _ => inr (type_error "value" "Hour of type int")
    end
  else inl st.

Fixpoint decode_members (members : list (string * json)) (st : Structure)
    : Structure + string :=
  match members with
  | [] => inl st
  | (key, value) :: rest =>
      match set_field key value st with
      | inl st' => decode_members rest st'
      | inr err => inr err
      end
  end.

Definition decode_Structure (v : json) : Structure + string :=
  match v with
  | JNull => inl zero_Structure
  | JObject members => decode_members members zero_Structure
  | _ => inr "json: cannot unmarshal value into Go value of type main.Structure"
  end.

Fixpoint decode_elements (items : list json) : list Structure + string :=
  match items with
  | [] => inl []
  | v :: rest =>
      match decode_Structure v with
      | inl st =>
          match decode_elements rest with
          | inl sts => inl (st :: sts)
          | inr err => inr err
          end
      | inr err => inr err
      end
  end.

Definition decode_slice (v : json) : list Structure + string :=
  match v with
  | JNull => inl []
  | JArray items => decode_elements items
  | _ => inr "json: cannot unmarshal value into Go value of type []main.Structure"
  end.

Inductive OpenOutcome :=
| OpenFailed (err : string)
| Opened (content : string).

(** The Go function returns [([]Structure, error)]; [fs] is what [os.Open]
    finds at a path. *)
Definition ReadJSON (fs : string -> OpenOutcome) (filePath : string)
    : list Structure * option string :=
  match fs filePath with
  | OpenFailed err => ([], Some err)
  | Opened content =>
      match json_scan content with
      | inr err => ([], Some err)
      | inl v =>
          match decode_slice v with
          | inr err => ([], Some err)
          | inl inputData => (inputData, None)
          end
      end
  end.

(** ** The goroutines and channels of [initializePipeline] *)

(** The goroutines run interleaved.  A communication on an unbuffered
    channel is one step taken by its sender and its receiver together; the
    request channel is buffered and is a counter of the [true] values it
    holds.  The state records where each goroutine stands and its local
    variables. *)

(** The main goroutine after the goroutines are started: in the loop over
    [data] at [dataMonitorSendDataChannel <- value] with [rest] still to
    send (at [noMoreDataChannel <- true] when [rest] is empty), at
    [<-resultMonitorSendFinalDataChannel], or past it. *)
Inductive Main :=
| MSend (rest : list Structure)
| MReceive
| MDone (computedData : list ComputedStructure).

(** [InitDataMonitor]: at the [select], at [responseDataChannel <- data[0]],
    or returned after [close(responseDataChannel)]. *)
Inductive DataMonitorPC :=
| DSelect
| DRespond
| DReturned.

Record DataMonitor := mkDataMonitor {
  dm_pc : DataMonitorPC;
  dm_data : list Structure;
  noMoreData : bool
}.

(** [InitResultMonitor]: in the loop while [workerCount > 0], then at
    [resultMonitorSendFinalDataChannel <- data], then returned. *)
Record ResultMonitor := mkResultMonitor {
  rm_data : list ComputedStructure;
  workerCount : Z;
  rm_returned : bool
}.

Record State := mkState {
  main : Main;
  dataMonitor : DataMonitor;
  requestChannel : nat;
  requestCapacity : nat;
  resultMonitor : ResultMonitor;
  workers : list Worker
}.

Definition set_main (m : Main) (s : State) : State :=
  mkState m (dataMonitor s) (requestChannel s) (requestCapacity s)
    (resultMonitor s) (workers s).

Definition set_dataMonitor (d : DataMonitor) (s : State) : State :=
  mkState (main s) d (requestChannel s) (requestCapacity s)
    (resultMonitor s) (workers s).

Definition set_requestChannel (n : nat) (s : State) : State :=
  mkState (main s) (dataMonitor s) n (requestCapacity s)
    (resultMonitor s) (workers s).

Definition set_resultMonitor (r : ResultMonitor) (s : State) : State :=
  mkState (main s) (dataMonitor s) (requestChannel s) (requestCapacity s)
    r (workers s).

Definition set_worker (w : nat) (p : Worker) (s : State) : State :=
  mkState (main s) (dataMonitor s) (requestChannel s) (requestCapacity s)
    (resultMonitor s) (<[w := p]> (workers s)).

(** The steps, named by who moves. *)
Inductive Action :=
| ASendData                 (* main sends a value, the data monitor appends it *)
| ANoMoreData               (* main sends on [noMoreDataChannel] *)
| ARequest (w : nat)        (* worker [w] puts [true] into the request channel *)
| ATakeRequest              (* the data monitor receives a request *)
| ARespond (w : nat)        (* the data monitor hands [data[0]] to worker [w] *)
| ADefault                  (* the [default] case of the data monitor *)
| AClosed (w : nat)         (* worker [w] receives from the closed channel *)
| ALookup (w : nat) (client_Get : string -> HttpOutcome)
                            (* worker [w] runs lines 183 to 199 *)
| ASubmit (w : nat)         (* worker [w] sends to the result monitor *)
| AStatus (w : nat)         (* worker [w] sends on [workerStatusChannel] *)
| AFinal.                   (* the result monitor sends [data] to main *)

(** What a step does, for the record of a run. *)
Inductive Event :=
| EvEnqueue (value : Structure)
| EvCloseInput
| EvRequest (w : nat)
| EvTake (answered : bool)
| EvDeliver (w : nat) (data : Structure)
| EvPoll
| EvEndOfStream
| EvNoMore (w : nat)
| EvLookup (w : nat) (data : Structure) (sunsetHour : Z) (err : option string)
| EvSubmit (w : nat) (c : ComputedStructure)
| EvWorkerDone (w : nat)
| EvPublish (computedData : list ComputedStructure).

(** The closure given to [sort.Slice]. *)
Definition less_Hour (a b : ComputedStructure) : bool := (CHour a <? CHour b)%Z.

(** One step.  The [select] of the data monitor takes any case whose
    communication is ready, and its [default] case when none is.  A value in
    the request channel is ready.  Main is ready once it has arrived at its
    send, which the state does not tell from being about to arrive, so with
    the request channel empty the [default] case is possible also while main
    still has something to send.  The [select] of the result monitor has no
    [default]; its loop ends when [workerCount] is no longer positive.
    [FindSunsetHour] is given what the lookup service answers at that call;
    [outputFilePath] plays no part before the report is written. *)

Definition exec (s : State) (a : Action) : option (Event * State) :=
  let d := dataMonitor s in
  let r := resultMonitor s in
  match a with
  | ASendData =>
      match main s, dm_pc d with
      | MSend (value :: rest), DSelect =>
          Some (EvEnqueue value,
                set_main (MSend rest)
                  (set_dataMonitor
                     (mkDataMonitor DSelect (dm_data d ++ [value]) (noMoreData d)) s))
      | _, _ => None
      end
  | ANoMoreData =>
      match main s, dm_pc d with
      | MSend [], DSelect =>
          Some (EvCloseInput,
                set_main MReceive
                  (set_dataMonitor (mkDataMonitor DSelect (dm_data d) true) s))
      | _, _ => None
      end
  | ARequest w =>
      match workers s !! w with
      | Some WRequest =>
          if (requestChannel s <? requestCapacity s)%nat then
            Some (EvRequest w,
                  set_worker w WReceive (set_requestChannel (S (requestChannel s)) s))
          else None
      | _ => None
      end
  | ATakeRequest =>
      match dm_pc d, requestChannel s with
      | DSelect, S n =>
          if (0 <? length (dm_data d))%nat then
            Some (EvTake true,
                  set_requestChannel n
                    (set_dataMonitor
                       (mkDataMonitor DRespond (dm_data d) (noMoreData d)) s))
          else Some (EvTake false, set_requestChannel n s)
      | _, _ => None
      end
  | ARespond w =>
      match dm_pc d, dm_data d, workers s !! w with
      | DRespond, data0 :: rest, Some WReceive =>
          Some (EvDeliver w data0,
                set_worker w (WLookup data0)
                  (set_dataMonitor (mkDataMonitor DSelect rest (noMoreData d)) s))
      | _, _, _ => None
      end
  | ADefault =>
      match dm_pc d, requestChannel s with
      | DSelect, O =>
          if noMoreData d && (length (dm_data d) =? 0)%nat then
            Some (EvEndOfStream,
                  set_dataMonitor
                    (mkDataMonitor DReturned (dm_data d) (noMoreData d)) s)
          else Some (EvPoll, s)
      | _, _ => None
      end
  | AClosed w =>
      match dm_pc d, workers s !! w with
      | DReturned, Some WReceive => Some (EvNoMore w, set_worker w WStatus s)
      | _, _ => None
      end
  | ALookup w client_Get =>
      match workers s !! w with
      | Some (WLookup data) =>
          let '(sunsetHour, err) := FindSunsetHour client_Get data in
          Some (EvLookup w data sunsetHour err,
                set_worker w (worker_body client_Get data) s)
      | _ => None
      end
  | ASubmit w =>
      match workers s !! w with
      | Some (WSubmit c) =>
          if (0 <? workerCount r)%Z then
            Some (EvSubmit w c,
                  set_worker w WRequest
                    (set_resultMonitor
                       (mkResultMonitor
                          (sort_Slice _ less_Hour (rm_data r ++ [c]))
                          (workerCount r) (rm_returned r)) s))
          else None
      | _ => None
      end
  | AStatus w =>
      match workers s !! w with
      | Some WStatus =>
          if (0 <? workerCount r)%Z then
            Some (EvWorkerDone w,
                  set_worker w WExit
                    (set_resultMonitor
                       (mkResultMonitor (rm_data r) (workerCount r - 1)
                          (rm_returned r)) s))
          else None
      | _ => None
      end
  | AFinal =>
      match main s with
      | MReceive =>
          if negb (0 <? workerCount r)%Z && negb (rm_returned r) then
            Some (EvPublish (rm_data r),
                  set_main (MDone (rm_data r))
                    (set_resultMonitor
                       (mkResultMonitor (rm_data r) (workerCount r) true) s))
          else None
      | _ => None
      end
  end.

(** A run: the events so far and the state reached. *)
Inductive Run (s0 : State) : list Event -> State -> Prop :=
| Run_start : Run s0 [] s0
| Run_step (t : list Event) (s : State) (a : Action) (e : Event) (s' : State) :
    Run s0 t s -> exec s a = Some (e, s') -> Run s0 (t ++ [e]) s'.

(** The same, computed from a schedule. *)
Fixpoint run (s : State) (schedule : list Action) : option (list Event * State) :=
  match schedule with
  | [] => Some ([], s)
  | a :: schedule' =>
      match exec s a with
      | Some (e, s') =>
          match run s' schedule' with
          | Some (t, s'') => Some (e :: t, s'')
          | None => None
          end
      | None => None
      end
  end.

(** The state in which [initializePipeline] has started every goroutine:
    the data it read is still to be sent, the monitors are at their loops,
    the request channel is empty and every worker is about to request. *)
Definition start (data : list Structure) (workerCount : nat) : State :=
  {| main := MSend data;
     dataMonitor := mkDataMonitor DSelect [] false;
     requestChannel := 0;
     requestCapacity := workerCount;
     resultMonitor := mkResultMonitor [] (Z.of_nat workerCount) false;
     workers := replicate workerCount WRequest |}.

(** The set-up part of [initializePipeline] (lines 55 to 79).  [make] of a
    channel with a negative size panics; an error of [ReadJSON] is fatal;
    otherwise the goroutines are started.  No other condition on
    [workerCount] is tested. *)
Inductive Setup :=
| Panic (msg : string)
| FatalError (msg : string)
| Running (s : State).

Definition initializePipeline (fs : string -> OpenOutcome) (inputFilePath : string)
    (workerCount : Z) : Setup :=
  if (workerCount <? 0)%Z then Panic "makechan: size out of range"
  else
    match ReadJSON fs inputFilePath with
    | (_, Some err) => FatalError (Sprintf "Error: %v" [OpString err])
    | (data, None) => Running (start data (Z.to_nat workerCount))
    end.

(** [main] (lines 32 to 45): without an argument the process ends at once;
    otherwise the first argument is the input file and the number of workers
    is the constant 10. *)
Definition main_func (fs : string -> OpenOutcome) (Args : list string) : Setup :=
  if (length Args <? 2)%nat then FatalError "Usage: go run main.go <input file path>"
  else initializePipeline fs (nth 1 Args EmptyString) 10.

(** The report main writes once it has received the final data. *)
Definition report (create : CreateOutcome) (s : State) : option Written :=
  match main s with
  | MDone computedData => Some (writeOutputToFile create computedData)
  | _ => None
  end.

(** The steps as a relation, one rule for each way [exec] succeeds. *)
Inductive step (s : State) : Event -> State -> Prop :=
| step_send value rest :
    main s = MSend (value :: rest) ->
    dm_pc (dataMonitor s) = DSelect ->
    step s (EvEnqueue value)
      (set_main (MSend rest)
         (set_dataMonitor
            (mkDataMonitor DSelect (dm_data (dataMonitor s) ++ [value])
               (noMoreData (dataMonitor s))) s))
| step_noMoreData :
    main s = MSend [] ->
    dm_pc (dataMonitor s) = DSelect ->
    step s EvCloseInput
      (set_main MReceive
         (set_dataMonitor
            (mkDataMonitor DSelect (dm_data (dataMonitor s)) true) s))
| step_request w :
    workers s !! w = Some WRequest ->
    (requestChannel s < requestCapacity s)%nat ->
    step s (EvRequest w)
      (set_worker w WReceive (set_requestChannel (S (requestChannel s)) s))
| step_take_respond n :
    dm_pc (dataMonitor s) = DSelect ->
    requestChannel s = S n ->
    dm_data (dataMonitor s) <> [] ->
    step s (EvTake true)
      (set_requestChannel n
         (set_dataMonitor
            (mkDataMonitor DRespond (dm_data (dataMonitor s))
               (noMoreData (dataMonitor s))) s))
| step_take_empty n :
    dm_pc (dataMonitor s) = DSelect ->
    requestChannel s = S n ->
    dm_data (dataMonitor s) = [] ->
    step s (EvTake false) (set_requestChannel n s)
| step_respond w data0 rest :
    dm_pc (dataMonitor s) = DRespond ->
    dm_data (dataMonitor s) = data0 :: rest ->
    workers s !! w = Some WReceive ->
    step s (EvDeliver w data0)
      (set_worker w (WLookup data0)
         (set_dataMonitor
            (mkDataMonitor DSelect rest (noMoreData (dataMonitor s))) s))
| step_close :
    dm_pc (dataMonitor s) = DSelect ->
    requestChannel s = O ->
    noMoreData (dataMonitor s) = true ->
    dm_data (dataMonitor s) = [] ->
    step s EvEndOfStream
      (set_dataMonitor
         (mkDataMonitor DReturned (dm_data (dataMonitor s))
            (noMoreData (dataMonitor s))) s)
| step_poll :
    dm_pc (dataMonitor s) = DSelect ->
    requestChannel s = O ->
    noMoreData (dataMonitor s) = false \/ dm_data (dataMonitor s) <> [] ->
    step s EvPoll s
| step_closed w :
    dm_pc (dataMonitor s) = DReturned ->
    workers s !! w = Some WReceive ->
    step s (EvNoMore w) (set_worker w WStatus s)
| step_lookup w client_Get data :
    workers s !! w = Some (WLookup data) ->
    step s
      (EvLookup w data (FindSunsetHour client_Get data).1
         (FindSunsetHour client_Get data).2)
      (set_worker w (worker_body client_Get data) s)
| step_submit w c :
    workers s !! w = Some (WSubmit c) ->
    (0 < workerCount (resultMonitor s))%Z ->
    step s (EvSubmit w c)
      (set_worker w WRequest
         (set_resultMonitor
            (mkResultMonitor
               (sort_Slice _ less_Hour (rm_data (resultMonitor s) ++ [c]))
               (workerCount (resultMonitor s))
               (rm_returned (resultMonitor s))) s))
| step_status w :
    workers s !! w = Some WStatus ->
    (0 < workerCount (resultMonitor s))%Z ->
    step s (EvWorkerDone w)
      (set_worker w WExit
         (set_resultMonitor
            (mkResultMonitor (rm_data (resultMonitor s))
               (workerCount (resultMonitor s) - 1)
               (rm_returned (resultMonitor s))) s))
| step_final :
    main s = MReceive ->
    (workerCount (resultMonitor s) <= 0)%Z ->
    rm_returned (resultMonitor s) = false ->
    step s (EvPublish (rm_data (resultMonitor s)))
      (set_main (MDone (rm_data (resultMonitor s)))
         (set_resultMonitor
            (mkResultMonitor (rm_data (resultMonitor s))
               (workerCount (resultMonitor s)) true) s)).

(** ** Records of a run *)

Definition enqueued (t : list Event) : list Structure :=
  omap (fun e => match e with EvEnqueue value => Some value | _ => None end) t.

Definition delivered (t : list Event) : list (nat * Structure) :=
  omap (fun e => match e with EvDeliver w data => Some (w, data) | _ => None end) t.

Definition submitted (t : list Event) : list ComputedStructure :=
  omap (fun e => match e with EvSubmit _ c => Some c | _ => None end) t.

Definition done_signals (t : list Event) : list nat :=
  omap (fun e => match e with EvWorkerDone w => Some w | _ => None end) t.

Definition published (t : list Event) : list (list ComputedStructure) :=
  omap (fun e => match e with EvPublish l => Some l | _ => None end) t.

(** The computed structure a lookup leads to, if any (lines 183 to 199). *)
Definition match_of (data : Structure) (sunsetHour : Z) (err : option string)
    : option ComputedStructure :=
  match err with
  | Some _ => None
  | None => if (sunsetHour =? Hour data)%Z then Some (computed data sunsetHour) else None
  end.

Definition matches (t : list Event) : list ComputedStructure :=
  omap (fun e => match e with
                 | EvLookup _ data sunsetHour err => match_of data sunsetHour err
                 | _ => None
                 end) t.

(** What main has not sent yet. *)
Definition unsent (s : State) : list Structure :=
  match main s with
  | MSend rest => rest
  | _ => []
  end.

Definition sending (s : State) : bool :=
  match main s with
  | MSend _ => true
  | _ => false
  end.

Definition closed (s : State) : bool :=
  match dm_pc (dataMonitor s) with
  | DReturned => true
  | _ => false
  end.

(** ** Invariants of a run *)

(** Everything read from the input is unsent, queued or delivered, in the
    order of the input; the data monitor returns only with the input closed
    and the queue empty. *)
Record queue_inv (input : list Structure) (t : list Event) (s : State) : Prop := {
  q_input : enqueued t ++ unsent s = input;
  q_fifo : (delivered t).*2 ++ dm_data (dataMonitor s) = enqueued t;
  q_noMoreData : noMoreData (dataMonitor s) = negb (sending s);
  q_returned : closed s = true ->
               noMoreData (dataMonitor s) = true /\ dm_data (dataMonitor s) = [];
  q_respond : dm_pc (dataMonitor s) = DRespond -> dm_data (dataMonitor s) <> []
}.

(** A worker whose last request was not answered with data. *)
Definition unanswered (p : Worker) : bool :=
  match p with
  | WReceive | WStatus | WExit => true
  | _ => false
  end.

Definition live (p : Worker) : bool :=
  match p with
  | WExit => false
  | _ => true
  end.

Definition count (f : Worker -> bool) (ws : list Worker) : nat :=
  length (List.filter f ws).

Definition responding (s : State) : nat :=
  match dm_pc (dataMonitor s) with
  | DRespond => 1
  | _ => 0
  end.

(** There are [n] workers, the request channel has room for [n] values, and
    every request in the channel, or taken by the data monitor and about to
    be answered, belongs to a worker that has not been given data since it
    sent it. *)
Record request_inv (n : nat) (s : State) : Prop := {
  r_workers : length (workers s) = n;
  r_capacity : requestCapacity s = n;
  r_bound : requestChannel s + responding s <= count unanswered (workers s)
}.

(** The counter of the result monitor is the number of workers that have
    not sent their status; a worker sends it once, after it was told that
    no data is left; the final data is sent once, with the counter at 0. *)
Record count_inv (n : nat) (t : list Event) (s : State) : Prop := {
  c_live : workerCount (resultMonitor s) = Z.of_nat (count live (workers s));
  c_signals : length (done_signals t) + count live (workers s) = n;
  c_exit : forall w, w ∈ done_signals t <-> workers s !! w = Some WExit;
  c_nodup : NoDup (done_signals t);
  c_closed : forall w, workers s !! w = Some WStatus \/ workers s !! w = Some WExit ->
                       closed s = true;
  c_published : published t =
                if rm_returned (resultMonitor s) then [rm_data (resultMonitor s)] else [];
  c_main : match main s with
           | MDone l => rm_returned (resultMonitor s) = true /\ l = rm_data (resultMonitor s)
           | _ => rm_returned (resultMonitor s) = false
           end;
  c_zero : rm_returned (resultMonitor s) = true -> workerCount (resultMonitor s) = 0%Z
}.

(** The computed structure a worker is about to send, if any. *)
Definition pending_of (p : Worker) : option ComputedStructure :=
  match p with
  | WSubmit c => Some c
  | _ => None
  end.

Definition pending (s : State) : list ComputedStructure :=
  omap pending_of (workers s).

(** The result monitor holds, in ascending order of [Hour], what was sent to
    it; what was sent to it or is about to be are the lookups that gave the
    hour of their record, and those only. *)
Record result_inv (t : list Event) (s : State) : Prop := {
  res_ascending : ascending less_Hour (rm_data (resultMonitor s));
  res_submitted : rm_data (resultMonitor s) ≡ₚ submitted t;
  res_matches : submitted t ++ pending s ≡ₚ matches t;
  res_equal : Forall (fun c => SunsetHour c = CHour c) (matches t)
}.

(** ** Schedules and states used to state the properties *)

(** Every worker has sent its request and every request has been taken by
    the data monitor while its queue was still empty. *)
Definition requests_lost (n : nat) : list Action :=
  map ARequest (seq 0 n) ++ repeat ATakeRequest n.

(** Main has sent everything and waits for the final data, the queue of the
    data monitor is not empty, the request channel is empty, every worker
    waits on the response channel and the result monitor waits for them. *)
Record hung (s : State) : Prop := {
  hung_main : main s = MReceive;
  hung_select : dm_pc (dataMonitor s) = DSelect;
  hung_queue : dm_data (dataMonitor s) <> [];
  hung_requests : requestChannel s = 0;
  hung_workers : forall w p, workers s !! w = Some p -> p = WReceive;
  hung_count : (0 < workerCount (resultMonitor s))%Z
}.

(** The input is closed and the queue of the data monitor is empty. *)
Record drained (s : State) : Prop := {
  drained_noMoreData : noMoreData (dataMonitor s) = true;
  drained_queue : dm_data (dataMonitor s) = [];
  drained_main : sending s = false;
  drained_pc : dm_pc (dataMonitor s) <> DRespond
}.

(** Ascending order of [Hour], said with positions. *)
Definition ascending_Hour (l : list ComputedStructure) : Prop :=
  forall i j a b, i < j -> l !! i = Some a -> l !! j = Some b -> (CHour a <= CHour b)%Z.

(** ** The report, as the specification describes it *)

(** One line for a match:
    [Date: <date> Lat: <lat, 2 decimals> Lng: <lng, 2 decimals>
     Guess Hour: <hour> Sunset Hour: <sunsetHour>]. *)
Definition report_line (c : ComputedStructure) : string :=
  "Date: " +:+ CDate c +:+
  " Lat: " +:+ FormatFloat (CLat c) 2 +:+
  " Lng: " +:+ FormatFloat (CLng c) 2 +:+
  " Guess Hour: " +:+ itoa (CHour c) +:+
  " Sunset Hour: " +:+ itoa (SunsetHour c).

(** The trailing line [Count: <n>]. *)
Definition count_line (n : nat) : string := "Count: " +:+ itoa (Z.of_nat n).

Fixpoint join_lines (ls : list string) : string :=
  match ls with
  | [] => EmptyString
  | l :: ls' => l +:+ LF +:+ join_lines ls'
  end.

(** The lines of a text: the pieces that end at a line feed, and what
    follows the last line feed if it is not empty. *)
Fixpoint lines (text : string) : list string :=
  match text with
  | EmptyString => []
  | String c rest =>
      if (c =? "010")%char then EmptyString :: lines rest
      else
        match lines rest with
        | [] => [String c EmptyString]
        | l :: ls => String c l :: ls
        end
  end.

Fixpoint has_LF (s : string) : bool :=
  match s with
  | EmptyString => false
  | String c rest => (c =? "010")%char || has_LF rest
  end.

(** ** Input files *)

(** One object of the input array as the specification describes it, with
    the texts of its two numbers. *)
Record Entry := mkEntry {
  entry_date : string;
  entry_lat : string;
  entry_lng : string;
  entry_hour : Z
}.

Definition entry_json (e : Entry) : json :=
  JObject [("date", JString (entry_date e));
           ("lat", JNumber (entry_lat e));
           ("lng", JNumber (entry_lng e));
           ("hour", JNumber (itoa (entry_hour e)))].

(** The structure decoded from an entry. *)
Definition decodes_to (e : Entry) (st : Structure) : Prop :=
  Date st = entry_date e /\
  ParseFloat (entry_lat e) = Some (Lat st) /\
  ParseFloat (entry_lng e) = Some (Lng st) /\
  Hour st = entry_hour e.

(** ** Further notions used to state the properties *)

(** [initializePipeline] did not start the pipeline. *)
Definition rejected (r : Setup) : bool :=
  match r with
  | Running _ => false
  | _ => true
  end.


(** Without workers nobody requests, receives or sends anything. *)
Record idle_inv (t : list Event) (s : State) : Prop := {
  idle_workers : workers s = [];
  idle_data : rm_data (resultMonitor s) = [];
  idle_delivered : delivered t = [];
  idle_submitted : submitted t = [];
  idle_published : Forall (fun l => l = []) (published t)
}.

(** ** Lookups of a run *)

(** The records whose lookup was run, in the order of the lookups. *)
Definition looked_up (t : list Event) : list Structure :=
  omap (fun e => match e with EvLookup _ data _ _ => Some data | _ => None end) t.

(** The record a worker holds between receiving it and its lookup. *)
Definition lookup_of (p : Worker) : option Structure :=
  match p with
  | WLookup data => Some data
  | _ => None
  end.

Definition in_lookup (s : State) : list Structure := omap lookup_of (workers s).

(** A worker blocked on [<-responseDataChannel]. *)
Definition receiving (p : Worker) : bool :=
  match p with
  | WReceive => true
  | _ => false
  end.

(** The lookup of the event was answered as [client_Get] answers. *)
Definition answered_by (client_Get : string -> HttpOutcome) (e : Event) : Prop :=
  match e with
  | EvLookup _ data sunsetHour err => FindSunsetHour client_Get data = (sunsetHour, err)
  | _ => True
  end.

(** The match a record gives when the service answers as [client_Get]. *)
Definition match_by (client_Get : string -> HttpOutcome) (data : Structure)
    : option ComputedStructure :=
  match_of data (FindSunsetHour client_Get data).1 (FindSunsetHour client_Get data).2.

(** ** Members of an input object *)

Definition is_null (v : json) : bool :=
  match v with
  | JNull => true
  | _ => false
  end.

(** A member that the decoder stores: its key is the name of a field up to
    the case of letters and its value is not [null]. *)
Definition stored (member : string * json) : bool :=
  (same_field member.1 "Date" || same_field member.1 "Lat" ||
   same_field member.1 "Lng" || same_field member.1 "Hour") &&
  negb (is_null member.2).

(** ** A schedule that serves the records one by one *)

(** Worker 0 requests, is given the next record, runs its lookup, and sends
    the match if there is one. *)
Definition serve (client_Get : string -> HttpOutcome) (data : Structure) : list Action :=
  [ARequest 0; ATakeRequest; ARespond 0; ALookup 0 client_Get] ++
  match match_by client_Get data with
  | Some _ => [ASubmit 0]
  | None => []
  end.

(** A worker requests, finds the response channel closed and signals. *)
Definition leave (w : nat) : list Action := [ARequest w; AClosed w; AStatus w].

(** Main sends the whole input and closes it, worker 0 serves every record,
    the data monitor ends the stream, every worker leaves, and the final
    data is handed to main. *)
Definition one_by_one (client_Get : string -> HttpOutcome) (data : list Structure)
    (n : nat) : list Action :=
  repeat ASendData (length data) ++ [ANoMoreData] ++
  flat_map (serve client_Get) data ++ [ADefault] ++
  flat_map leave (seq 0 n) ++ [AFinal].

(** Every lookup of the schedule is answered by [client_Get]. *)
Definition asks (client_Get : string -> HttpOutcome) (a : Action) : Prop :=
  match a with
  | ALookup _ g => g = client_Get
  | _ => True
  end.

(** ** A measure of the work that is left *)

(** Weights chosen so that every step other than the idle [default] case
    lowers the sum: a record costs more unsent than queued, and queued more
    than the rise from a waiting worker to one that holds a record. *)
Definition worker_weight (p : Worker) : nat :=
  match p with
  | WExit => 0
  | WStatus => 1
  | WReceive => 2
  | WRequest => 5
  | WSubmit _ => 6
  | WLookup _ => 7
  end.

Definition workers_weight (ws : list Worker) : nat :=
  foldr (fun p k => worker_weight p + k) 0 ws.

Definition main_weight (m : Main) : nat :=
  match m with
  | MSend rest => 2 + 6 * length rest
  | MReceive => 1
  | MDone _ => 0
  end.

Definition monitor_weight (pc : DataMonitorPC) : nat :=
  match pc with
  | DReturned => 0
  | DSelect => 1
  | DRespond => 2
  end.

Definition work_left (s : State) : nat :=
  main_weight (main s) + monitor_weight (dm_pc (dataMonitor s)) +
  5 * length (dm_data (dataMonitor s)) + 2 * requestChannel s +
  workers_weight (workers s).

Definition is_poll (e : Event) : bool :=
  match e with
  | EvPoll => true
  | _ => false
  end.

(** The steps of a run other than idle polls. *)
Definition work_done (t : list Event) : nat :=
  length (List.filter (fun e => negb (is_poll e)) t).

End Program.

(** * An instance of the library to run the model on

    A small stand-in for the library of Go: it knows the floats 10 and 20,
    three texts and four times, and sorts by insertion.  It is used to run the model on examples; the theorems
    hold for every instance. *)
Module Example.

(** Insertion sort; an element goes before the first element that is not
    less than it, so elements that compare equal keep their order. *)
Fixpoint insert {A : Type} (less : A -> A -> bool) (x : A) (l : list A) : list A :=
  match l with
  | [] => [x]
  | y :: l' => if less y x then y :: insert less x l' else x :: l
  end.

Definition insertion_sort {A : Type} (less : A -> A -> bool) (l : list A) : list A :=
  fold_right (insert less) [] l.


Definition quoted (s : string) : string :=
  String "034"%char s +:+ String "034"%char EmptyString.

(** The input of scenario A of the specification. *)
Definition scenario_text : string :=
  "[{" +:+ quoted "date" +:+ ":" +:+ quoted "2024-06-01" +:+ "," +:+
  quoted "lat" +:+ ":10," +:+ quoted "lng" +:+ ":20," +:+
  quoted "hour" +:+ ":19}]".

Definition scenario_json : json :=
  JArray [JObject [("date", JString "2024-06-01"); ("lat", JNumber "10");
                   ("lng", JNumber "20"); ("hour", JNumber "19")]].

(** An hour outside 0 to 23. *)
Definition late_text : string :=
  "[{" +:+ quoted "date" +:+ ":" +:+ quoted "2024-06-01" +:+ "," +:+
  quoted "lat" +:+ ":10," +:+ quoted "lng" +:+ ":20," +:+
  quoted "hour" +:+ ":99}]".

Definition late_json : json :=
  JArray [JObject [("date", JString "2024-06-01"); ("lat", JNumber "10");
                   ("lng", JNumber "20"); ("hour", JNumber "99")]].

Definition scan (content : string) : json + string :=
  if String.eqb content "[]" then inl (JArray [])
  else if String.eqb content scenario_text then inl scenario_json
  else if String.eqb content late_text then inl late_json
  else inr "invalid character looking for beginning of value".

(** The bits of 10.0 and of 20.0. *)
Definition ten : float64 := 0x4024000000000000%Z.
Definition twenty : float64 := 0x4034000000000000%Z.

Definition parse_float (text : string) : option float64 :=
  if String.eqb text "10" then Some ten
  else if String.eqb text "20" then Some twenty
  else None.

Definition format_float (f : float64) (prec : nat) : string :=
  (if (f =? ten)%Z then "10" else if (f =? twenty)%Z then "20" else "NaN") +:+
  match prec with
  | O => EmptyString
  | S _ => "." +:+ String.concat EmptyString (repeat "0" prec)
  end.

Definition clock (layout value : string) : Z + string :=
  if String.eqb value "7:14:32 PM" then inl 19%Z
  else if String.eqb value "8:01:09 PM" then inl 20%Z
  else if String.eqb value "5:40:00 AM" then inl 5%Z
  else if String.eqb value "3:15:00 AM" then inl 3%Z
  else inr "parsing time: cannot parse".

Definition lib (sort : forall A : Type, (A -> A -> bool) -> list A -> list A) : GoLib :=
  {| FormatFloat := format_float;
     ParseFloat := parse_float;
     json_scan := scan;
     time_Time := Z;
     time_Parse := clock;
     time_Hour := fun h => h;
     sort_Slice := sort |}.

Definition stable_lib : GoLib := lib (@insertion_sort).

(** A file system with the three files. *)
Definition fs (filePath : string) : OpenOutcome :=
  if String.eqb filePath "empty.json" then Opened "[]"
  else if String.eqb filePath "scenario.json" then Opened scenario_text
  else if String.eqb filePath "late.json" then Opened late_text
  else OpenFailed "open: no such file or directory".

(** Answers of the lookup service. *)
Definition sunset_at (time : string) (url : string) : HttpOutcome :=
  Decoded {| Results_Sunset := time; Status := "OK" |}.

Definition no_network (url : string) : HttpOutcome :=
  GetFailed "dial tcp: network is unreachable".

Definition bad_status (url : string) : HttpOutcome :=
  Decoded {| Results_Sunset := EmptyString; Status := "INVALID_REQUEST" |}.

(** Records and schedules for one worker. *)
Definition record (date : string) (hour : Z) : Structure :=
  mkStructure date ten twenty hour.

(** The worker is handed the one record, its lookup gives 7 pm, it sends the
    match, asks again, and the data monitor ends the stream. *)
Definition closing_schedule : list Action :=
  [ASendData; ANoMoreData; ARequest 0; ATakeRequest; ARespond 0;
   ALookup 0 (sunset_at "7:14:32 PM"); ASubmit 0;
   ARequest 0; ATakeRequest; ADefault].

Definition scenario_schedule : list Action :=
  closing_schedule ++ [AClosed 0; AStatus 0; AFinal].

(** The same with a lookup that fails. *)
Definition failing_schedule : list Action :=
  [ASendData; ANoMoreData; ARequest 0; ATakeRequest; ARespond 0;
   ALookup 0 no_network;
   ARequest 0; ATakeRequest; ADefault; AClosed 0; AStatus 0; AFinal].

(** Two records, both matched at 7 pm. *)
Definition tie_schedule : list Action :=
  [ASendData; ASendData; ANoMoreData;
   ARequest 0; ATakeRequest; ARespond 0;
   ALookup 0 (sunset_at "7:14:32 PM"); ASubmit 0;
   ARequest 0; ATakeRequest; ARespond 0;
   ALookup 0 (sunset_at "7:14:32 PM"); ASubmit 0;
   ARequest 0; ATakeRequest; ADefault; AClosed 0; AStatus 0; AFinal].


(** One record whose lookup gives another hour than its own. *)
Definition mismatch_schedule : list Action :=
  [ASendData; ANoMoreData; ARequest 0; ATakeRequest; ARespond 0;
   ALookup 0 (sunset_at "8:01:09 PM");
   ARequest 0; ATakeRequest; ADefault; AClosed 0; AStatus 0; AFinal].

(** Two workers, one record each, matched at 5 am and at 3 am; the two
    matches reach the result monitor in one order or in the other. *)
Definition two_workers (submits : list Action) : list Action :=
  [ASendData; ASendData; ANoMoreData; ARequest 0; ARequest 1;
   ATakeRequest; ARespond 0; ATakeRequest; ARespond 1;
   ALookup 0 (sunset_at "5:40:00 AM"); ALookup 1 (sunset_at "3:15:00 AM")] ++
  submits ++
  [ARequest 0; ARequest 1; ATakeRequest; ATakeRequest; ADefault;
   AClosed 0; AClosed 1; AStatus 0; AStatus 1; AFinal].

(** The lines of the report of a schedule, if it ends with main having the
    final data. *)
Definition report_lines `{GoLib} (data : list Structure) (workerCount : nat)
    (schedule : list Action) : option (list string) :=
  match run (start data workerCount) schedule with
  | Some (_, s) =>
      match report Created s with
      | Some (Content content) => Some (lines content)
      | _ => None
      end
  | None => None
  end.

End Example.

(** * More examples: an input with a bad hour *)
Module BadInput.

(** An array whose second object has the hour 19.5. *)
Definition half_hour_json : json :=
  JArray [JObject [("date", JString "2024-06-01"); ("hour", JNumber "19")];
          JObject [("date", JString "2024-06-02"); ("hour", JNumber "19.5")]].

Definition lib : GoLib :=
  {| FormatFloat := Example.format_float;
     ParseFloat := Example.parse_float;
     json_scan := fun _ => inl half_hour_json;
     time_Time := Z;
     time_Parse := Example.clock;
     time_Hour := fun h => h;
     sort_Slice := @Example.insertion_sort |}.

Definition fs (filePath : string) : OpenOutcome :=
  if String.eqb filePath "half.json" then Opened "the text of the array"
  else OpenFailed "open: no such file or directory".

End BadInput.

(** * Properties *)

Ltac bools :=
  repeat match goal with
    | H : (_ <? _)%nat = true |- _ => apply Nat.ltb_lt in H
    | H : (_ <? _)%nat = false |- _ => apply Nat.ltb_ge in H
    | H : (_ =? _)%nat = true |- _ => apply Nat.eqb_eq in H
    | H : (_ =? _)%nat = false |- _ => apply Nat.eqb_neq in H
    | H : (_ <? _)%Z = true |- _ => apply Z.ltb_lt in H
    | H : (_ <? _)%Z = false |- _ => apply Z.ltb_ge in H
    | H : (_ =? _)%Z = true |- _ => apply Z.eqb_eq in H
    | H : (_ =? _)%Z = false |- _ => apply Z.eqb_neq in H
    | H : _ && _ = true |- _ => apply andb_true_iff in H; destruct H
    | H : _ && _ = false |- _ => apply andb_false_iff in H
    | H : negb _ = true |- _ => apply negb_true_iff in H
    | H : negb _ = false |- _ => apply negb_false_iff in H
    end.

Section Properties.
Context `{GoLib}.

(** *** Strings *)

Lemma append_empty_r (s : string) : s +:+ EmptyString = s.
Proof.
  induction s as [|c s IH]; [done|].
  transitivity (String c (s +:+ EmptyString)); [reflexivity | by f_equal].
Qed.

Lemma append_assoc (s1 s2 s3 : string) : (s1 +:+ s2) +:+ s3 = s1 +:+ s2 +:+ s3.
Proof.
  induction s1 as [|c s1 IH]; [done|].
  change (String c ((s1 +:+ s2) +:+ s3) = String c (s1 +:+ s2 +:+ s3)).
  by f_equal.
Qed.

(** *** Steps and runs *)

Lemma exec_step s a e s' : exec s a = Some (e, s') -> step s e s'.
Proof.
  intros Hex. unfold exec in Hex.
  destruct a; repeat (case_match; try discriminate); simplify_eq; bools;
    try match goal with
      | Hf : FindSunsetHour ?g ?d = _ |- step ?s _ _ =>
          pose proof (step_lookup s w g d) as Hs; rewrite Hf in Hs; by apply Hs
      end;
    try (econstructor; eauto; (congruence || lia)).
  - eapply step_take_respond; eauto.
    destruct (dm_data (dataMonitor s)); [simpl in *; lia | done].
  - match goal with |- step ?x _ _ => destruct (dm_data (dataMonitor x)) eqn:Hd end;
      [by eapply step_take_empty | simpl in *; lia].
  - apply step_close; auto. by destruct (dm_data (dataMonitor s)).
  - match goal with |- step ?x _ _ => destruct (dm_data (dataMonitor x)) eqn:Hd end;
      apply step_poll; auto.
    + match goal with H : _ \/ _ |- _ => destruct H; bools end; [by left | done].
    + right. congruence.
Qed.

Lemma step_exec s e s' : step s e s' -> exists a, exec s a = Some (e, s').
Proof.
  intros Hst. destruct Hst.
  - exists ASendData. unfold exec. by rewrite H0, H1.
  - exists ANoMoreData. unfold exec. by rewrite H0, H1.
  - exists (ARequest w). unfold exec. rewrite H0.
    by destruct (Nat.ltb_spec (requestChannel s) (requestCapacity s)); [|lia].
  - exists ATakeRequest. unfold exec. rewrite H0, H1.
    by destruct (dm_data (dataMonitor s)).
  - exists ATakeRequest. unfold exec. by rewrite H0, H1, H2.
  - exists (ARespond w). unfold exec. by rewrite H0, H1, H2.
  - exists ADefault. unfold exec. by rewrite H0, H1, H2, H3.
  - exists ADefault. unfold exec. rewrite H0, H1.
    destruct H2 as [->|Hd]; [done|].
    destruct (dm_data (dataMonitor s)); [done|]. simpl. by rewrite andb_false_r.
  - exists (AClosed w). unfold exec. by rewrite H0, H1.
  - exists (ALookup w client_Get). unfold exec. rewrite H0.
    by destruct (FindSunsetHour client_Get data).
  - exists (ASubmit w). unfold exec. rewrite H0.
    by destruct (Z.ltb_spec 0 (workerCount (resultMonitor s))); [|lia].
  - exists (AStatus w). unfold exec. rewrite H0.
    by destruct (Z.ltb_spec 0 (workerCount (resultMonitor s))); [|lia].
  - exists AFinal. unfold exec. rewrite H0, H2.
    by destruct (Z.ltb_spec 0 (workerCount (resultMonitor s))); [lia|].
Qed.

Lemma Run_cons s a e s1 t s' :
  exec s a = Some (e, s1) -> Run s1 t s' -> Run s (e :: t) s'.
Proof.
  intros Hex Hrun. induction Hrun as [|t s2 a' e' s3 _ IH Hex'].
  - apply (Run_step s [] s a e s1); [constructor | exact Hex].
  - apply (Run_step s (e :: t) s2 a' e' s3); assumption.
Qed.

Lemma Run_app s0 t1 s1 t2 s2 :
  Run s0 t1 s1 -> Run s1 t2 s2 -> Run s0 (t1 ++ t2) s2.
Proof.
  intros H1 H2. induction H2 as [|t s a e s' _ IH Hex].
  - by rewrite app_nil_r.
  - rewrite app_assoc. by eapply Run_step.
Qed.

Lemma run_Run schedule : forall s t s',
  run s schedule = Some (t, s') -> Run s t s'.
Proof.
  induction schedule as [|a schedule IH]; intros s t s' Hrun; simpl in Hrun.
  - simplify_eq. constructor.
  - destruct (exec s a) as [[e s1]|] eqn:Hex; [|discriminate].
    destruct (run s1 schedule) as [[t1 s2]|] eqn:Hrest; [|discriminate].
    simplify_eq. eapply Run_cons; eauto.
Qed.

Lemma Run_invariant (P : list Event -> State -> Prop) s0 :
  P [] s0 ->
  (forall t s e s', Run s0 t s -> P t s -> step s e s' -> P (t ++ [e]) s') ->
  forall t s, Run s0 t s -> P t s.
Proof.
  intros H0 Hstep t s Hrun. induction Hrun as [|t s a e s' Hrun IH Hex]; [done|].
  eapply Hstep; eauto using exec_step.
Qed.

Lemma enqueued_snoc t e : enqueued (t ++ [e]) = enqueued t ++ enqueued [e].
Proof. apply omap_app. Qed.
Lemma delivered_snoc t e : delivered (t ++ [e]) = delivered t ++ delivered [e].
Proof. apply omap_app. Qed.
Lemma submitted_snoc t e : submitted (t ++ [e]) = submitted t ++ submitted [e].
Proof. apply omap_app. Qed.
Lemma done_signals_snoc t e :
  done_signals (t ++ [e]) = done_signals t ++ done_signals [e].
Proof. apply omap_app. Qed.
Lemma published_snoc t e : published (t ++ [e]) = published t ++ published [e].
Proof. apply omap_app. Qed.
Lemma matches_snoc t e : matches (t ++ [e]) = matches t ++ matches [e].
Proof. apply omap_app. Qed.

Ltac trace_simpl :=
  rewrite ?enqueued_snoc, ?delivered_snoc, ?submitted_snoc, ?done_signals_snoc,
    ?published_snoc, ?matches_snoc, ?fmap_app;
  cbn [enqueued delivered submitted done_signals published matches
       omap list_omap fmap list_fmap snd fst];
  rewrite ?app_nil_r.

(** *** The queue of the data monitor *)


Lemma queue_inv_start input n : queue_inv input [] (start input n).
Proof. split; simpl; done. Qed.

Lemma queue_inv_step input t s e s' :
  queue_inv input t s -> step s e s' -> queue_inv input (t ++ [e]) s'.
Proof.
  intros [Hi Hf Hn Hc Hd] Hst.
  destruct Hst; split; trace_simpl;
    unfold unsent, sending, closed in *; simpl in *;
    repeat match goal with
      | H : main _ = _ |- _ => rewrite H in *
      | H : dm_pc _ = _ |- _ => rewrite H in *
      | H : dm_data _ = _ |- _ => rewrite H in *
      end; simpl in *; rewrite ?app_nil_r in *;
    try done; try (intros; congruence).
  - by rewrite <- app_assoc.
  - by rewrite app_assoc, Hf.
  - by rewrite <- app_assoc.
Qed.

(** *** Workers and the request channel *)

Lemma count_insert f (ws : list Worker) w x y :
  ws !! w = Some x ->
  count f (<[w := y]> ws) + Nat.b2n (f x) = count f ws + Nat.b2n (f y).
Proof.
  unfold count. revert w. induction ws as [|p ws IH]; intros [|w] Hw; simplify_eq/=.
  - destruct (f x), (f y); simpl; lia.
  - specialize (IH _ Hw). destruct (f p); simpl; lia.
Qed.

Lemma count_le f (ws : list Worker) : count f ws <= length ws.
Proof. unfold count. induction ws as [|p ws IH]; simpl; [lia|]. destruct (f p); simpl; lia. Qed.

Lemma count_lt f (ws : list Worker) w x :
  ws !! w = Some x -> f x = false -> count f ws < length ws.
Proof.
  unfold count. revert w. induction ws as [|p ws IH]; intros [|w] Hw Hf; simplify_eq/=.
  - rewrite Hf. pose proof (count_le f ws). unfold count in *. lia.
  - specialize (IH _ Hw Hf). destruct (f p); simpl; lia.
Qed.

Lemma count_zero f (ws : list Worker) w x :
  count f ws = 0 -> ws !! w = Some x -> f x = false.
Proof.
  unfold count. revert w. induction ws as [|p ws IH]; intros [|w] Hc Hw; simplify_eq/=.
  - by destruct (f x).
  - destruct (f p); [done|]. eauto.
Qed.

Lemma count_replicate f n p : count f (replicate n p) = if f p then n else 0.
Proof.
  unfold count. induction n as [|n IH]; simpl; [by destruct (f p)|].
  destruct (f p); simpl; lia.
Qed.

Lemma request_inv_start input n : request_inv n (start input n).
Proof.
  split; simpl; [apply length_replicate | done |].
  rewrite count_replicate. simpl. unfold responding. simpl. lia.
Qed.

Lemma request_inv_step n s e s' :
  request_inv n s -> step s e s' -> request_inv n s'.
Proof.
  intros [Hl Hc Hb] Hst.
  destruct Hst; split; unfold responding in *; simpl in *;
    rewrite ?length_insert; try done;
    repeat match goal with
      | H : dm_pc _ = _ |- _ => rewrite H in *
      | H : requestChannel _ = _ |- _ => rewrite H in *
      | H : workers _ !! _ = Some _ |- context [count ?f (<[_ := ?y]> _)] =>
          pose proof (count_insert f _ _ _ y H); clear H
      end; simpl in *; try lia.
Qed.

Lemma lookup_insert_other (ws : list Worker) w w' x y q :
  ws !! w = Some x -> x <> q -> y <> q ->
  <[w := y]> ws !! w' = Some q <-> ws !! w' = Some q.
Proof.
  intros Hw Hx Hy. destruct (decide (w = w')) as [->|Hne].
  - rewrite list_lookup_insert_eq by eauto using lookup_lt_Some.
    split; congruence.
  - by rewrite list_lookup_insert_ne.
Qed.

Lemma worker_body_cases client_Get data :
  worker_body client_Get data = WRequest \/
  exists c, worker_body client_Get data = WSubmit c.
Proof.
  unfold worker_body. destruct (FindSunsetHour client_Get data) as [h [err|]]; [by left|].
  destruct (negb (h =? Hour data)%Z); eauto.
Qed.

Lemma count_inv_start input n : count_inv n [] (start input n).
Proof.
  split; simpl; try done.
  - by rewrite count_replicate.
  - rewrite count_replicate. simpl. lia.
  - intros w. split; [by intros ?%elem_of_nil|].
    intros [Hw _]%lookup_replicate. discriminate.
  - constructor.
  - intros w [[Hw _]%lookup_replicate|[Hw _]%lookup_replicate]; discriminate.
Qed.

Lemma count_inv_step n t s e s' :
  count_inv n t s -> step s e s' -> count_inv n (t ++ [e]) s'.
Proof.
  intros [Hlive Hsig Hex Hnd Hcl Hpub Hmain Hzero] Hst.
  assert (Hopen : dm_pc (dataMonitor s) <> DReturned ->
                  forall w, workers s !! w <> Some WStatus /\ workers s !! w <> Some WExit).
  { intros Hpc w. split; intros Hw; (assert (closed s = true) as Hc by eauto);
      unfold closed in Hc; by destruct (dm_pc (dataMonitor s)). }
  assert (Hrun : (0 < workerCount (resultMonitor s))%Z ->
                 rm_returned (resultMonitor s) = false).
  { intros Hpos. destruct (rm_returned (resultMonitor s)); [|done].
    rewrite Hzero in Hpos by done. lia. }
  destruct Hst.
  - (* send *)
    split; trace_simpl; simpl; try done.
    + intros w Hw. destruct (Hopen ltac:(congruence) w). tauto.
    + by rewrite H0 in Hmain.
  - (* noMoreData *)
    split; trace_simpl; simpl; try done.
    + intros w Hw. destruct (Hopen ltac:(congruence) w). tauto.
    + by rewrite H0 in Hmain.
  - (* request *)
    pose proof (count_insert live _ _ _ WReceive H0) as Hc. simpl in Hc.
    split; trace_simpl; simpl; try done.
    + rewrite Hlive. f_equal. lia.
    + lia.
    + intros w'. rewrite Hex. symmetry. by eapply lookup_insert_other.
    + intros w' [Hw|Hw]; rewrite (lookup_insert_other _ _ _ _ _ _ H0) in Hw by done;
        eauto.
  - (* take, answered *)
    split; trace_simpl; simpl; try done.
    intros w Hw. destruct (Hopen ltac:(congruence) w). tauto.
  - (* take, queue empty *)
    split; trace_simpl; simpl; try done.
  - (* respond *)
    pose proof (count_insert live _ _ _ (WLookup data0) H2) as Hc. simpl in Hc.
    split; trace_simpl; simpl; try done.
    + rewrite Hlive. f_equal. lia.
    + lia.
    + intros w'. rewrite Hex. symmetry. by eapply lookup_insert_other.
    + intros w' [Hw|Hw]; rewrite (lookup_insert_other _ _ _ _ _ _ H2) in Hw by done;
        destruct (Hopen ltac:(congruence) w'); tauto.
  - (* close *)
    split; trace_simpl; simpl; try done.
  - (* poll *)
    split; trace_simpl; simpl; try done.
  - (* told no more *)
    pose proof (count_insert live _ _ _ WStatus H1) as Hc. simpl in Hc.
    split; trace_simpl; simpl; try done.
    + rewrite Hlive. f_equal. lia.
    + lia.
    + intros w'. rewrite Hex. symmetry. by eapply lookup_insert_other.
    + intros _ _. unfold closed. simpl. by rewrite H0.
  - (* lookup *)
    assert (live (worker_body client_Get data) = true /\
            worker_body client_Get data <> WExit /\
            worker_body client_Get data <> WStatus) as (Hl & Hne & Hns).
    { destruct (worker_body_cases client_Get data) as [->|[c ->]]; done. }
    pose proof (count_insert live _ _ _ (worker_body client_Get data) H0) as Hc.
    rewrite Hl in Hc. simpl in Hc.
    split; trace_simpl; simpl; try done.
    + rewrite Hlive. f_equal. lia.
    + lia.
    + intros w'. rewrite Hex. symmetry. by eapply lookup_insert_other.
    + intros w' [Hw|Hw]; rewrite (lookup_insert_other _ _ _ _ _ _ H0) in Hw by done;
        eauto.
  - (* submit *)
    pose proof (count_insert live _ _ _ WRequest H0) as Hc. simpl in Hc.
    specialize (Hrun H1).
    split; trace_simpl; simpl; try done.
    + rewrite Hlive. f_equal. lia.
    + lia.
    + intros w'. rewrite Hex. symmetry. by eapply lookup_insert_other.
    + intros w' [Hw|Hw]; rewrite (lookup_insert_other _ _ _ _ _ _ H0) in Hw by done;
        eauto.
    + by rewrite Hpub, Hrun.
    + rewrite Hrun in *. destruct (main s); simpl; try done. by destruct Hmain.
  - (* status *)
    pose proof (count_insert live _ _ _ WExit H0) as Hc. simpl in Hc.
    specialize (Hrun H1).
    assert (Hnot : w ∉ done_signals t) by (rewrite Hex; congruence).
    split; trace_simpl; simpl; try done.
    + rewrite Hlive. lia.
    + rewrite length_app. simpl. lia.
    + intros w'. rewrite elem_of_app, list_elem_of_singleton, Hex.
      destruct (decide (w = w')) as [->|Hne].
      * rewrite list_lookup_insert_eq by eauto using lookup_lt_Some. tauto.
      * rewrite list_lookup_insert_ne by done. split; [|tauto].
        intros [?|?]; [done|congruence].
    + apply NoDup_app. split; [done|]. split; [|apply NoDup_singleton].
      intros x Hx ->%list_elem_of_singleton. done.
    + intros _ _. apply (Hcl w). by left.
    + by rewrite Hrun.
  - (* final *)
    split; trace_simpl; simpl; try done.
    + by rewrite Hpub, H2.
    + intros _. lia.
Qed.

(** *** The result monitor *)

Lemma less_Hour_irrefl a : less_Hour a a = false.
Proof. apply Z.ltb_irrefl. Qed.

Lemma less_Hour_trans a b c :
  less_Hour a b = true -> less_Hour b c = true -> less_Hour a c = true.
Proof. unfold less_Hour. rewrite !Z.ltb_lt. lia. Qed.

Lemma less_Hour_negtrans a b c :
  less_Hour a b = false -> less_Hour b c = false -> less_Hour a c = false.
Proof. unfold less_Hour. rewrite !Z.ltb_ge. lia. Qed.

Lemma omap_insert {A} (f : Worker -> option A) (ws : list Worker) w x y :
  ws !! w = Some x ->
  omap f (<[w := y]> ws) ++ option_list (f x) ≡ₚ omap f ws ++ option_list (f y).
Proof.
  revert w. induction ws as [|p ws IH]; intros [|w] Hw; simplify_eq/=.
  - destruct (f x), (f y); simpl; rewrite ?app_nil_r; try done.
    + rewrite <- !Permutation_middle. simpl. apply perm_swap.
    + apply (Permutation_app_comm _ [_]).
    + apply (Permutation_app_comm [_]).
  - specialize (IH _ Hw). destruct (f p); simpl; [by f_equiv|done].
Qed.

Lemma pending_of_worker_body client_Get data :
  pending_of (worker_body client_Get data) =
  match_of data (FindSunsetHour client_Get data).1 (FindSunsetHour client_Get data).2.
Proof.
  unfold worker_body, match_of.
  destruct (FindSunsetHour client_Get data) as [h [err|]]; simpl; [done|].
  by destruct (h =? Hour data)%Z.
Qed.

Lemma match_of_equal data h err c :
  match_of data h err = Some c -> SunsetHour c = CHour c.
Proof.
  unfold match_of. destruct err; [done|].
  destruct (h =? Hour data)%Z eqn:Heq; [|done].
  intros [= <-]. simpl. by apply Z.eqb_eq.
Qed.

Section Sorting.
Context `{!SortSliceSpec}.

Lemma result_inv_start input n : result_inv [] (start input n).
Proof.
  split; simpl; try done; try constructor.
  unfold pending. simpl. induction n; simpl; auto.
Qed.

Lemma result_inv_step t s e s' :
  result_inv t s -> step s e s' -> result_inv (t ++ [e]) s'.
Proof.
  intros [Hasc Hsub Hmat Heq] Hst.
  destruct Hst; split; trace_simpl; unfold pending in *; simpl in *; try done;
    try match goal with
      | H : workers _ !! _ = Some _ |- context [omap pending_of (<[_ := ?y]> _)] =>
          pose proof (omap_insert pending_of _ _ _ y H) as Hp; simpl in Hp;
          rewrite ?app_nil_r in Hp
      end.
  - by rewrite Hp.
  - by rewrite Hp.
  - by rewrite Hp.
  - rewrite pending_of_worker_body in Hp. rewrite Hp, app_assoc. by f_equiv.
  - apply Forall_app. split; [done|].
    destruct (match_of _ _ _) eqn:Hm; constructor; [|done].
    eauto using match_of_equal.
  - apply sort_Slice_ascending;
      [apply less_Hour_irrefl | apply less_Hour_trans | apply less_Hour_negtrans].
  - rewrite sort_Slice_perm. by f_equiv.
  - rewrite <- Hmat, <- Hp, <- !app_assoc. f_equiv. apply Permutation_app_comm.
  - by rewrite Hp.
Qed.

End Sorting.

(** *** Requests taken from an empty queue *)

Lemma hung_step s e s' : hung s -> step s e s' -> e = EvPoll /\ s' = s.
Proof.
  intros [Hm Hs Hq Hr Hw Hc] Hst.
  destruct Hst; try done; try congruence;
    try match goal with
      | Hl : workers _ !! _ = Some _ |- _ => by apply Hw in Hl
      end.
  lia.
Qed.

Lemma hung_Run s t s' : hung s -> Run s t s' -> s' = s /\ Forall (eq EvPoll) t.
Proof.
  intros Hh Hrun. induction Hrun as [|t s1 a e s2 _ [-> Ht] Hex]; [done|].
  destruct (hung_step _ _ _ Hh (exec_step _ _ _ _ Hex)) as [-> ->].
  split; [done|]. apply Forall_app. split; [done|]. by constructor.
Qed.

Lemma send_all rest : forall s,
  main s = MSend rest -> dm_pc (dataMonitor s) = DSelect ->
  exists s',
    run s (repeat ASendData (length rest)) = Some (map EvEnqueue rest, s') /\
    s' = set_main (MSend [])
           (set_dataMonitor
              (mkDataMonitor DSelect (dm_data (dataMonitor s) ++ rest)
                 (noMoreData (dataMonitor s))) s).
Proof.
  induction rest as [|value rest IH]; intros s Hm Hd.
  - eexists. split; [done|]. destruct s as [m [pc q b] c k r ws]; simpl in *.
    by rewrite app_nil_r, Hm, Hd.
  - simpl. unfold exec. rewrite Hm, Hd.
    edestruct (IH (set_main (MSend rest)
                (set_dataMonitor
                   (mkDataMonitor DSelect (dm_data (dataMonitor s) ++ [value])
                      (noMoreData (dataMonitor s))) s))) as (s' & Hrun & ->); [done..|].
    fold (exec). rewrite Hrun. eexists. split; [done|]. simpl.
    by rewrite <- app_assoc.
Qed.

Lemma run_app schedule1 : forall s schedule2 t1 s1 t2 s2,
  run s schedule1 = Some (t1, s1) -> run s1 schedule2 = Some (t2, s2) ->
  run s (schedule1 ++ schedule2) = Some (t1 ++ t2, s2).
Proof.
  induction schedule1 as [|a schedule1 IH]; intros s schedule2 t1 s1 t2 s2 H1 H2;
    simpl in *.
  - by simplify_eq.
  - destruct (exec s a) as [[e sa]|]; [|done].
    destruct (run sa schedule1) as [[t' s']|] eqn:Hr; [|done]. simplify_eq.
    by rewrite (IH _ _ _ _ _ _ Hr H2).
Qed.

Lemma request_phase m : forall k s,
  workers s = replicate k WReceive ++ replicate m WRequest ->
  requestChannel s = k -> requestCapacity s = k + m ->
  run s (map ARequest (seq k m)) =
  Some (map EvRequest (seq k m),
        mkState (main s) (dataMonitor s) (k + m) (k + m) (resultMonitor s)
          (replicate (k + m) WReceive)).
Proof.
  induction m as [|m IH]; intros k s Hw Hr Hc.
  - simpl in *. rewrite app_nil_r in Hw. rewrite Nat.add_0_r in *.
    destruct s; simpl in *. by subst.
  - simpl. unfold exec. rewrite Hw.
    rewrite lookup_app_r by (rewrite length_replicate; lia).
    rewrite length_replicate, Nat.sub_diag. simpl.
    rewrite Hr, Hc. destruct (Nat.ltb_spec k (k + S m)) as [_|?]; [|lia].
    fold exec. rewrite (IH (S k)); simpl.
    + by rewrite Nat.add_succ_r.
    + rewrite Hw, insert_app_r_alt by (rewrite length_replicate; lia).
      rewrite length_replicate, Nat.sub_diag. simpl.
      by rewrite app_comm_cons, replicate_cons_app, <- app_assoc.
    + done.
    + rewrite Hc. lia.
Qed.

Lemma take_phase k : forall s,
  dm_pc (dataMonitor s) = DSelect -> dm_data (dataMonitor s) = [] ->
  requestChannel s = k ->
  run s (repeat ATakeRequest k) =
  Some (repeat (EvTake false) k, set_requestChannel 0 s).
Proof.
  induction k as [|k IH]; intros s Hpc Hd Hr.
  - simpl. destruct s; simpl in *. by subst.
  - simpl. unfold exec. rewrite Hpc, Hr, Hd. simpl. fold exec.
    by rewrite IH.
Qed.

Lemma requests_lost_run data n :
  run (start data n) (requests_lost n) =
  Some (map EvRequest (seq 0 n) ++ repeat (EvTake false) n,
        mkState (MSend data) (mkDataMonitor DSelect [] false) 0 n
          (mkResultMonitor [] (Z.of_nat n) false) (replicate n WReceive)).
Proof.
  unfold requests_lost. eapply run_app.
  - by apply (request_phase n 0 (start data n)).
  - by rewrite take_phase.
Qed.

(** *** The invariants hold along every run *)

Lemma Run_queue_inv input n t s : Run (start input n) t s -> queue_inv input t s.
Proof.
  apply (Run_invariant (queue_inv input)); [apply queue_inv_start|].
  eauto using queue_inv_step.
Qed.

Lemma Run_request_inv input n t s : Run (start input n) t s -> request_inv n s.
Proof.
  apply (Run_invariant (fun _ => request_inv n)); [apply request_inv_start|].
  eauto using request_inv_step.
Qed.

Lemma Run_count_inv input n t s : Run (start input n) t s -> count_inv n t s.
Proof.
  apply (Run_invariant (count_inv n)); [apply count_inv_start|].
  eauto using count_inv_step.
Qed.

Lemma Run_result_inv `{!SortSliceSpec} input n t s :
  Run (start input n) t s -> result_inv t s.
Proof.
  apply (Run_invariant result_inv); [apply result_inv_start|].
  eauto using result_inv_step.
Qed.

(** The data handed to workers so far, in order, followed by the queue of the
    data monitor and by what main has not sent yet, is the input: nothing is
    handed out twice and nothing leaves the queue in another way.  When the
    response channel is closed, the whole input has been handed out. *)
Lemma delivery_in_order input n t s :
  Run (start input n) t s ->
  (delivered t).*2 ++ dm_data (dataMonitor s) ++ unsent s = input /\
  (closed s = true -> (delivered t).*2 = input).
Proof.
  intros Hrun. destruct (Run_queue_inv _ _ _ _ Hrun) as [Hi Hf Hn Hc Hd].
  split.
  - by rewrite app_assoc, Hf.
  - intros Hcl. destruct (Hc Hcl) as [Hnm Hq].
    rewrite Hq, app_nil_r in Hf. rewrite Hf, <- Hi.
    rewrite Hnm in Hn. unfold unsent, sending in *.
    destruct (main s); [done|..]; by rewrite app_nil_r.
Qed.

(** C1, the defect: the data monitor takes a request out of the channel also
    when its queue is empty, and then neither answers it nor keeps it
    (lines 135 to 140).  With any number of workers and any input that is
    not empty there is a schedule (every worker sends its request and the
    data monitor takes all of them before main sends the first record) after
    which the whole input sits in the queue, the input is closed, and the
    only step the system can ever take is the [default] case of the data
    monitor: no record is handed to a worker, the response channel is not
    closed, nothing is published. *)
Theorem lost_requests_leave_input_undelivered n data :
  0 < n -> data <> [] ->
  exists t s,
    run (start data n)
      (requests_lost n ++ repeat ASendData (length data) ++ [ANoMoreData])
    = Some (t, s) /\
    delivered t = [] /\
    dm_data (dataMonitor s) = data /\
    noMoreData (dataMonitor s) = true /\
    closed s = false /\
    forall t' s', Run s t' s' -> s' = s /\ Forall (eq EvPoll) t'.
Proof.
  intros Hn Hdata.
  pose proof (requests_lost_run data n) as H1.
  set (s1 := mkState (MSend data) (mkDataMonitor DSelect [] false) 0 n
               (mkResultMonitor [] (Z.of_nat n) false) (replicate n WReceive)) in *.
  destruct (send_all data s1 eq_refl eq_refl) as (s2 & H2 & Hs2).
  assert (H3 : run s2 [ANoMoreData] =
               Some ([EvCloseInput],
                     mkState MReceive (mkDataMonitor DSelect data true) 0 n
                       (mkResultMonitor [] (Z.of_nat n) false) (replicate n WReceive)))
    by (by subst s2).
  pose proof (run_app _ _ _ _ _ _ _ H1 (run_app _ _ _ _ _ _ _ H2 H3)) as Hrun.
  eexists _, _. split; [exact Hrun|].
  pose proof (Run_queue_inv _ _ _ _ (run_Run _ _ _ _ Hrun)) as [Hi Hf _ _ _].
  simpl in *. unfold unsent in Hi. simpl in Hi. rewrite app_nil_r in Hi.
  repeat split; try done.
  - rewrite Hi in Hf. apply (f_equal length) in Hf.
    rewrite length_app, length_fmap in Hf.
    apply length_zero_iff_nil. lia.
  - eapply hung_Run; [|eassumption].
    split; simpl; try done; try lia.
    by intros w p [-> _]%lookup_replicate.
  - eapply hung_Run; [|eassumption].
    split; simpl; try done; try lia.
    by intros w p [-> _]%lookup_replicate.
Qed.

(** *** After the input is closed and the queue is empty *)

Lemma drained_step s e s' :
  drained s -> step s e s' ->
  drained s' /\ delivered [e] = [] /\ (closed s = true -> closed s' = true).
Proof.
  intros [Hn Hq Hm Hp] Hst. unfold sending, closed in *.
  destruct Hst; simpl in *;
    repeat match goal with
      | H : main _ = _ |- _ => rewrite H in *
      | H : dm_pc _ = _ |- _ => rewrite H in *
      end; try done; try congruence.
  all: split; [split; unfold sending; simpl; try done; congruence|done].
Qed.

Lemma drained_Run s t s' :
  drained s -> Run s t s' ->
  drained s' /\ delivered t = [] /\ (closed s = true -> closed s' = true).
Proof.
  intros Hd Hrun. induction Hrun as [|t s1 a e s2 _ (Hd1 & Ht & Hc) Hex]; [done|].
  destruct (drained_step _ _ _ Hd1 (exec_step _ _ _ _ Hex)) as (Hd2 & He & Hc').
  split; [done|]. split; [|tauto].
  by rewrite delivered_snoc, Ht, He.
Qed.

Lemma drained_reachable input n t s :
  Run (start input n) t s ->
  noMoreData (dataMonitor s) = true -> dm_data (dataMonitor s) = [] -> drained s.
Proof.
  intros Hrun Hn Hq. destruct (Run_queue_inv _ _ _ _ Hrun) as [_ _ Hs _ Hr].
  split; try done.
  - rewrite Hn in Hs. by destruct (sending s).
  - intros Hpc. by apply Hr.
Qed.

Lemma close_phase s :
  drained s -> closed s = false ->
  exists s',
    run s (repeat ATakeRequest (requestChannel s) ++ [ADefault]) =
    Some (repeat (EvTake false) (requestChannel s) ++ [EvEndOfStream], s') /\
    closed s' = true.
Proof.
  intros [Hn Hq Hm Hp] Hc.
  assert (Hpc : dm_pc (dataMonitor s) = DSelect).
  { unfold closed in Hc. by destruct (dm_pc (dataMonitor s)). }
  eexists. split.
  - eapply run_app; [by apply take_phase|].
    simpl. unfold exec. simpl. by rewrite Hpc, Hn, Hq.
  - done.
Qed.

Lemma request_has_room input n t s w :
  Run (start input n) t s -> workers s !! w = Some WRequest ->
  requestChannel s < requestCapacity s.
Proof.
  intros Hrun Hw. destruct (Run_request_inv _ _ _ _ Hrun) as [Hl Hc Hb].
  pose proof (count_lt unanswered _ _ _ Hw eq_refl). lia.
Qed.

(** C3: a worker is told that no data is left only when the input has been
    closed, nothing is left to send or queued, and the whole input has been
    handed out.  Once the input is closed and the queue is empty this stays
    so, no data is handed out any more, and a closed response channel stays
    closed; the data monitor, by steps of its own, takes the requests still
    in the channel and closes the response channel; and with the channel
    closed a worker waiting for a response is told at once that no data is
    left, and a worker about to request can send its request (the channel
    has room) and is then told the same. *)
Theorem end_of_stream input n t s :
  Run (start input n) t s ->
  (forall a w s', exec s a = Some (EvNoMore w, s') ->
     noMoreData (dataMonitor s) = true /\ dm_data (dataMonitor s) = [] /\
     unsent s = [] /\ (delivered t).*2 = input) /\
  (noMoreData (dataMonitor s) = true -> dm_data (dataMonitor s) = [] ->
     (forall t' s', Run s t' s' ->
        noMoreData (dataMonitor s') = true /\ dm_data (dataMonitor s') = [] /\
        delivered t' = [] /\ (closed s = true -> closed s' = true)) /\
     (closed s = false ->
        (exists s',
           run s (repeat ATakeRequest (requestChannel s) ++ [ADefault]) =
           Some (repeat (EvTake false) (requestChannel s) ++ [EvEndOfStream], s') /\
           closed s' = true) /\
        (forall e s', exec s ATakeRequest = Some (e, s') ->
           e = EvTake false /\ requestChannel s' < requestChannel s) /\
        (forall e s', exec s ADefault = Some (e, s') ->
           e = EvEndOfStream /\ closed s' = true)) /\
     (closed s = true ->
        forall w,
          (workers s !! w = Some WReceive ->
             exec s (AClosed w) = Some (EvNoMore w, set_worker w WStatus s)) /\
          (workers s !! w = Some WRequest ->
             exec s (ARequest w) =
             Some (EvRequest w,
                   set_worker w WReceive
                     (set_requestChannel (S (requestChannel s)) s))))).
Proof.
  intros Hrun. split.
  - intros a w s' Hex. apply exec_step in Hex. inversion Hex; subst.
    assert (Hc : closed s = true) by (unfold closed; by rewrite H1).
    destruct (Run_queue_inv _ _ _ _ Hrun) as [Hi Hf Hs Hr _].
    destruct (Hr Hc) as [Hn Hq].
    destruct (delivery_in_order _ _ _ _ Hrun) as [_ Hall].
    repeat split; auto.
    rewrite Hn in Hs. unfold unsent, sending in *. by destruct (main s).
  - intros Hn Hq. pose proof (drained_reachable _ _ _ _ Hrun Hn Hq) as Hd.
    split; [|split].
    + intros t' s' Hr. destruct (drained_Run _ _ _ Hd Hr) as ([Hn' Hq' _ _] & Ht & Hc).
      done.
    + intros Hc. split; [by apply close_phase|].
      split; intros e s' Hex; unfold exec in Hex; rewrite ?Hn, Hq in Hex;
        destruct (dm_pc (dataMonitor s)), (requestChannel s) eqn:Hr;
        simpl in Hex; simplify_eq; split; try done.
      simpl. lia.
    + intros Hc w. unfold closed in Hc. split; intros Hw; unfold exec; rewrite Hw.
      * by destruct (dm_pc (dataMonitor s)).
      * pose proof (request_has_room _ _ _ _ _ Hrun Hw) as Hlt.
        by destruct (Nat.ltb_spec (requestChannel s) (requestCapacity s)); [|lia].
Qed.

(** *** The counter of the result monitor *)

Lemma all_exited input n t s :
  Run (start input n) t s -> workerCount (resultMonitor s) = 0%Z ->
  forall w p, workers s !! w = Some p -> p = WExit.
Proof.
  intros Hrun Hz w p Hw. destruct (Run_count_inv _ _ _ _ Hrun) as [Hl _ _ _ _ _ _ _].
  assert (Hc : count live (workers s) = 0) by lia.
  pose proof (count_zero live _ _ _ Hc Hw). by destruct p.
Qed.

Lemma final_enabled input n t s :
  Run (start input n) t s -> 0 < n ->
  workerCount (resultMonitor s) = 0%Z -> published t = [] ->
  main s = MReceive /\ rm_returned (resultMonitor s) = false.
Proof.
  intros Hrun Hn Hz Hp.
  destruct (Run_count_inv _ _ _ _ Hrun) as [Hl Hsig _ _ Hcl Hpub Hmain _].
  destruct (Run_queue_inv _ _ _ _ Hrun) as [_ _ Hs Hr _].
  destruct (Run_request_inv _ _ _ _ Hrun) as [Hlen _ _].
  assert (Hret : rm_returned (resultMonitor s) = false).
  { rewrite Hp in Hpub. by destruct (rm_returned (resultMonitor s)). }
  split; [|done].
  destruct (lookup_lt_is_Some_2 (workers s) 0) as [p Hw]; [lia|].
  pose proof (all_exited _ _ _ _ Hrun Hz _ _ Hw) as ->.
  destruct (Hr (Hcl 0 (or_intror Hw))) as [Hnm _].
  rewrite Hnm in Hs. unfold sending in Hs. rewrite Hret in Hmain.
  destruct (main s); try done. by destruct Hmain.
Qed.

Lemma final_data_published input n t s l :
  Run (start input n) t s -> main s = MDone l ->
  rm_returned (resultMonitor s) = true /\ published t = [l].
Proof.
  intros Hrun Hm. destruct (Run_count_inv _ _ _ _ Hrun) as [_ _ _ _ _ Hpub Hmain _].
  rewrite Hm in Hmain. destruct Hmain as [Hret ->]. by rewrite Hpub, Hret.
Qed.

(** With at least one worker, the final data is sent only after the
    response channel was closed, so after the whole input was handed out. *)
Lemma published_after_delivery input n t s :
  Run (start input n) t s -> 0 < n -> published t <> [] ->
  closed s = true /\ (delivered t).*2 = input.
Proof.
  intros Hrun Hn Hp.
  destruct (Run_count_inv _ _ _ _ Hrun) as [_ _ _ _ Hcl Hpub _ Hzero].
  destruct (Run_request_inv _ _ _ _ Hrun) as [Hlen _ _].
  assert (Hret : rm_returned (resultMonitor s) = true).
  { destruct (rm_returned (resultMonitor s)); [done|]. by rewrite Hpub in Hp. }
  destruct (lookup_lt_is_Some_2 (workers s) 0) as [p Hw]; [lia|].
  pose proof (all_exited _ _ _ _ Hrun (Hzero Hret) _ _ Hw) as ->.
  assert (Hc : closed s = true) by (apply (Hcl 0); by right).
  split; [done|]. by apply (delivery_in_order _ _ _ _ Hrun).
Qed.

(** What holds of the counter: the counter of the result monitor starts at
    the number [n] of workers and is [n] less the number of status signals
    received, each
    signal lowers it by exactly one and no other step changes it, and a
    worker signals at most once.  The final data is sent to main at most
    once; the step that sends it is taken with the counter at 0, after [n]
    signals, and hands over the data held at that moment.  With the counter
    at 0 and nothing sent yet, that step is enabled as soon as main waits
    for it, and with at least one worker main does wait by then. *)
Theorem worker_countdown input n t s :
  Run (start input n) t s ->
  workerCount (resultMonitor s) =
    (Z.of_nat n - Z.of_nat (length (done_signals t)))%Z /\
  NoDup (done_signals t) /\
  (forall a e s', exec s a = Some (e, s') ->
     workerCount (resultMonitor s') =
     match e with
     | EvWorkerDone _ => (workerCount (resultMonitor s) - 1)%Z
     | _ => workerCount (resultMonitor s)
     end) /\
  length (published t) <= 1 /\
  (forall a l s', exec s a = Some (EvPublish l, s') ->
     workerCount (resultMonitor s) = 0%Z /\ length (done_signals t) = n /\
     published t = [] /\ l = rm_data (resultMonitor s) /\ main s' = MDone l) /\
  (workerCount (resultMonitor s) = 0%Z -> published t = [] ->
     (main s = MReceive \/ 0 < n) ->
     exec s AFinal =
     Some (EvPublish (rm_data (resultMonitor s)),
           set_main (MDone (rm_data (resultMonitor s)))
             (set_resultMonitor
                (mkResultMonitor (rm_data (resultMonitor s))
                   (workerCount (resultMonitor s)) true) s))).
Proof.
  intros Hrun.
  pose proof (Run_count_inv _ _ _ _ Hrun) as [Hl Hsig Hex Hnd Hcl Hpub Hmain Hzero].
  split; [lia|]. split; [done|]. split; [|split; [|split]].
  - intros a e s' Hst. apply exec_step in Hst. by destruct Hst.
  - rewrite Hpub. destruct (rm_returned (resultMonitor s)); simpl; lia.
  - intros a l s' Hst. apply exec_step in Hst.
    inversion Hst as [| | | | | | | | | | | |Hm Hle Hret]; subst.
    rewrite Hpub, Hret. repeat split; try done; lia.
  - intros Hz Hp Hor.
    assert (main s = MReceive /\ rm_returned (resultMonitor s) = false) as [Hm Hr].
    { destruct Hor as [Hm|Hn]; [|by eapply final_enabled].
      split; [done|]. rewrite Hp in Hpub.
      by destruct (rm_returned (resultMonitor s)). }
    unfold exec. by rewrite Hm, Hz, Hr.
Qed.

Lemma ascending_less_Hour l : ascending less_Hour l -> ascending_Hour l.
Proof.
  unfold ascending, ascending_Hour. induction 1 as [|a l Hs IH Hall].
  - intros i j x y _ Hx. by rewrite lookup_nil in Hx.
  - intros [|i] [|j] x y Hij Hx Hy; simplify_eq/=; try lia.
    + rewrite Forall_lookup in Hall. specialize (Hall _ _ Hy).
      unfold less_Hour in Hall. apply Z.ltb_ge in Hall. lia.
    + eapply (IH i j); eauto; lia.
Qed.

Lemma count_pos f (ws : list Worker) w x :
  ws !! w = Some x -> f x = true -> 0 < count f ws.
Proof.
  unfold count. revert w. induction ws as [|p ws IH]; intros [|w] Hw Hf; simplify_eq/=.
  - rewrite Hf. simpl. lia.
  - specialize (IH _ Hw Hf). destruct (f p); simpl; lia.
Qed.

Lemma live_counted input n t s w p :
  Run (start input n) t s -> workers s !! w = Some p -> live p = true ->
  (0 < workerCount (resultMonitor s))%Z.
Proof.
  intros Hrun Hw Hp. destruct (Run_count_inv _ _ _ _ Hrun) as [Hl _ _ _ _ _ _ _].
  pose proof (count_pos live _ _ _ Hw Hp). lia.
Qed.

Lemma nothing_pending (ws : list Worker) :
  (forall w p, ws !! w = Some p -> p = WExit) -> omap pending_of ws = [].
Proof.
  induction ws as [|p ws IH]; intros Hall; [done|]. simpl.
  rewrite (Hall 0 p eq_refl). simpl. apply IH. intros w q Hw. by apply (Hall (S w)).
Qed.

Section Results.
Context `{!SortSliceSpec}.

(** What main receives is what the result monitor was sent, which is what
    the lookups that gave the hour of their record produced. *)
Lemma final_data input n t s l :
  Run (start input n) t s -> main s = MDone l ->
  l = rm_data (resultMonitor s) /\ l ≡ₚ submitted t /\ l ≡ₚ matches t /\
  published t = [l].
Proof.
  intros Hrun Hm.
  destruct (Run_count_inv _ _ _ _ Hrun) as [_ _ _ _ _ Hpub Hmain Hzero].
  destruct (Run_result_inv _ _ _ _ Hrun) as [_ Hsub Hmat _].
  rewrite Hm in Hmain. destruct Hmain as [Hret ->].
  rewrite Hret in Hpub. repeat split; try done.
  rewrite Hsub, <- Hmat. unfold pending.
  rewrite (nothing_pending (workers s)); [by rewrite app_nil_r|].
  eauto using all_exited.
Qed.

(** C9: in every state of a run the data held by the result monitor is in
    ascending order of [Hour]; a step that receives a computed structure
    appends it and sorts the whole slice, and leaves it in that order. *)
Theorem held_data_ascending input n t s :
  Run (start input n) t s ->
  ascending_Hour (rm_data (resultMonitor s)) /\
  (forall a w c s', exec s a = Some (EvSubmit w c, s') ->
     rm_data (resultMonitor s') =
       sort_Slice _ less_Hour (rm_data (resultMonitor s) ++ [c]) /\
     ascending_Hour (rm_data (resultMonitor s'))).
Proof.
  intros Hrun. split.
  - apply ascending_less_Hour. by destruct (Run_result_inv _ _ _ _ Hrun).
  - intros a w c s' Hex.
    assert (Hrun' : Run (start input n) (t ++ [EvSubmit w c]) s')
      by (by eapply Run_step).
    split.
    + apply exec_step in Hex. by inversion Hex.
    + apply ascending_less_Hour. by destruct (Run_result_inv _ _ _ _ Hrun').
Qed.


(** C5: after a lookup without error a worker goes on to send a computed
    structure exactly when the sunset hour equals the hour of the record,
    and otherwise goes back to request the next record.  Along a run, what
    was sent to the result monitor or is about to be sent is what the
    lookups with equal hours produced; a worker about to send can send; and
    every computed structure about to be sent, held by the result monitor or
    received by main has its two hours equal. *)
Theorem submitted_iff_hours_equal input n t s :
  Run (start input n) t s ->
  (forall client_Get data h,
     FindSunsetHour client_Get data = (h, None) ->
     (h = Hour data /\ worker_body client_Get data = WSubmit (computed data h)) \/
     (h <> Hour data /\ worker_body client_Get data = WRequest)) /\
  submitted t ++ pending s ≡ₚ matches t /\
  (forall w c, workers s !! w = Some (WSubmit c) ->
     exists s', exec s (ASubmit w) = Some (EvSubmit w c, s')) /\
  Forall (fun c => SunsetHour c = CHour c)
    (pending s ++ rm_data (resultMonitor s)) /\
  (forall l, main s = MDone l -> Forall (fun c => SunsetHour c = CHour c) l).
Proof.
  intros Hrun. destruct (Run_result_inv _ _ _ _ Hrun) as [_ Hsub Hmat Heq].
  repeat split.
  - intros g data h Hf. unfold worker_body. rewrite Hf.
    destruct (Z.eqb_spec h (Hour data)) as [->|Hne]; simpl; [left|right]; done.
  - done.
  - intros w c Hw. unfold exec. rewrite Hw.
    pose proof (live_counted _ _ _ _ _ _ Hrun Hw eq_refl) as Hpos.
    destruct (Z.ltb_spec 0 (workerCount (resultMonitor s))); [eauto|lia].
  - by rewrite (Permutation_app_comm (pending s)), Hsub, Hmat.
  - intros l Hm. destruct (final_data _ _ _ _ _ Hrun Hm) as (_ & _ & Hp & _).
    eapply Permutation_Forall; [symmetry; exact Hp | exact Heq].
Qed.

(** C6: [FindSunsetHour] returns an error when the request fails, when the
    body cannot be decoded, when the status is not [OK] and when the time
    cannot be parsed.  A worker whose lookup returns an error goes back to
    request the next record, and that step changes nothing else: the other
    workers, the monitors and main stay as they are, and the step is always
    possible.  Such a lookup adds nothing to what is sent to the result
    monitor, and what main receives, whose length is the [Count] of the
    report, is a rearrangement of what the other lookups produced. *)
Theorem lookup_failure_contained input n t s :
  Run (start input n) t s ->
  (forall client_Get data,
     match client_Get (apiURL data) with
     | GetFailed err | DecodeFailed err =>
         FindSunsetHour client_Get data = ((-1)%Z, Some err)
     | Decoded result =>
         (Status result <> "OK" ->
          FindSunsetHour client_Get data =
            ((-1)%Z, Some ("api returned status: " +:+ Status result))) /\
         (forall err, Status result = "OK" ->
            time_Parse "3:04:05 PM" (Results_Sunset result) = inr err ->
            FindSunsetHour client_Get data = ((-1)%Z, Some err))
     end) /\
  (forall w data client_Get h err,
     workers s !! w = Some (WLookup data) ->
     FindSunsetHour client_Get data = (h, Some err) ->
     exec s (ALookup w client_Get) =
       Some (EvLookup w data h (Some err), set_worker w WRequest s) /\
     matches (t ++ [EvLookup w data h (Some err)]) = matches t) /\
  (forall l, main s = MDone l ->
     l ≡ₚ matches t /\
     report Created s = Some (writeOutputToFile Created l) /\
     length l = length (matches t)).
Proof.
  intros Hrun. split; [|split].
  - intros g data. unfold FindSunsetHour.
    destruct (g (apiURL data)) as [err|err|result]; try done. split.
    + intros Hne. apply String.eqb_neq in Hne. rewrite Hne. simpl.
      by rewrite append_empty_r.
    + intros err Hok Hp. rewrite Hok, Hp. done.
  - intros w data g h err Hw Hf. split.
    + unfold exec. rewrite Hw, Hf. unfold worker_body. by rewrite Hf.
    + rewrite matches_snoc. simpl. by rewrite app_nil_r.
  - intros l Hm. destruct (final_data _ _ _ _ _ Hrun Hm) as (_ & _ & Hp & _).
    split; [done|]. split; [|by rewrite Hp].
    unfold report. by rewrite Hm.
Qed.

End Results.

(** *** The report *)

Lemma has_LF_app s1 s2 : has_LF (s1 +:+ s2) = has_LF s1 || has_LF s2.
Proof.
  induction s1 as [|c s1 IH]; [done|].
  change (has_LF (String c (s1 +:+ s2)) = has_LF (String c s1) || has_LF s2).
  simpl. rewrite IH. by rewrite orb_assoc.
Qed.

Lemma has_LF_uint d : has_LF (NilEmpty.string_of_uint d) = false.
Proof. induction d; simpl; auto. Qed.

Lemma has_LF_itoa i : has_LF (itoa i) = false.
Proof.
  unfold itoa, NilZero.string_of_int, NilZero.string_of_uint.
  destruct (Z.to_int i) as [d|d]; destruct d; simpl; auto using has_LF_uint.
Qed.

Lemma lines_line l rest :
  has_LF l = false -> lines (l +:+ LF +:+ rest) = l :: lines rest.
Proof.
  induction l as [|c l IH]; intros Hl; [done|].
  simpl in Hl. apply orb_false_iff in Hl as [Hc Hl].
  change (lines (String c (l +:+ LF +:+ rest)) = String c l :: lines rest).
  simpl. by rewrite Hc, IH.
Qed.

Lemma lines_join ls :
  Forall (fun l => has_LF l = false) ls -> lines (join_lines ls) = ls.
Proof.
  induction 1 as [|l ls Hl _ IH]; [done|].
  simpl. by rewrite lines_line, IH.
Qed.

Lemma Sprintf_line c :
  Sprintf line_format
    [OpString (CDate c); OpFloat (CLat c); OpFloat (CLng c);
     OpInt (CHour c); OpInt (SunsetHour c)]
  = report_line c +:+ LF.
Proof. unfold report_line. by rewrite !append_assoc. Qed.

Lemma Sprintf_count n :
  Sprintf count_format [OpInt (Z.of_nat n)] = count_line n +:+ LF.
Proof. unfold count_line. by rewrite !append_assoc. Qed.

Lemma write_lines (l : list ComputedStructure) : forall file,
  fold_left
    (fun file value =>
       Fprintf file line_format
         [OpString (CDate value); OpFloat (CLat value); OpFloat (CLng value);
          OpInt (CHour value); OpInt (SunsetHour value)])
    l file
  = file +:+ join_lines (map report_line l).
Proof.
  induction l as [|c l IH]; intros file; simpl.
  - by rewrite append_empty_r.
  - rewrite IH. unfold Fprintf. by rewrite Sprintf_line, !append_assoc.
Qed.

Lemma join_lines_app ls1 ls2 :
  join_lines (ls1 ++ ls2) = join_lines ls1 +:+ join_lines ls2.
Proof.
  induction ls1 as [|l ls1 IH]; [done|].
  simpl. by rewrite IH, !append_assoc.
Qed.

Lemma has_LF_report_line c :
  has_LF (CDate c) = false ->
  has_LF (FormatFloat (CLat c) 2) = false ->
  has_LF (FormatFloat (CLng c) 2) = false ->
  has_LF (report_line c) = false.
Proof.
  intros Hd Hlat Hlng. unfold report_line.
  by rewrite !has_LF_app, Hd, Hlat, Hlng, !has_LF_itoa.
Qed.

(** C8: the file written for the data [computedData] is, in the order of
    [computedData], one line [Date: .. Lat: .. Lng: .. Guess Hour: ..
    Sunset Hour: ..] for each element, each ended by a line feed, followed by
    the line [Count: n] with [n] the number of elements.  When no date and no
    printed float contains a line feed, the lines of the file are exactly
    these, one for each element and the count line last. *)
Theorem report_format (computedData : list ComputedStructure) :
  writeOutputToFile Created computedData =
    Content (join_lines (map report_line computedData ++
                         [count_line (length computedData)])) /\
  (Forall (fun c => has_LF (CDate c) = false /\
                    has_LF (FormatFloat (CLat c) 2) = false /\
                    has_LF (FormatFloat (CLng c) 2) = false) computedData ->
   forall content, writeOutputToFile Created computedData = Content content ->
     lines content =
       map report_line computedData ++ [count_line (length computedData)] /\
     length (lines content) = S (length computedData)).
Proof.
  assert (Hw : writeOutputToFile Created computedData =
               Content (join_lines (map report_line computedData ++
                                    [count_line (length computedData)]))).
  { unfold writeOutputToFile, Fprintf.
    rewrite write_lines, Sprintf_count, join_lines_app. simpl.
    by rewrite append_empty_r. }
  split; [done|].
  intros Hall content Hc. rewrite Hw in Hc. injection Hc as <-.
  rewrite lines_join.
  - split; [done|]. rewrite length_app, length_map. simpl. lia.
  - apply Forall_app. split.
    + apply Forall_map. eapply Forall_impl; [exact Hall|].
      intros c (? & ? & ?). by apply has_LF_report_line.
    + constructor; [|done]. unfold count_line.
      by rewrite has_LF_app, has_LF_itoa.
Qed.

(** *** Reading the input *)

Lemma ParseInt_itoa i :
  (- 2 ^ 63 <= i < 2 ^ 63)%Z -> ParseInt (itoa i) = Some i.
Proof.
  intros Hi. unfold ParseInt, itoa. rewrite NilZero.isi.
  - rewrite DecimalZ.of_to.
    destruct (Z.leb_spec (- 2 ^ 63) i), (Z.ltb_spec i (2 ^ 63)); simpl; try lia.
    done.
  - destruct i; simpl; try done. intros [= Hp]. by apply Unsigned.to_uint_nonnil in Hp.
  - destruct i; simpl; try done. intros [= Hp]. by apply Unsigned.to_uint_nonnil in Hp.
Qed.

Lemma decode_entry e :
  (- 2 ^ 63 <= entry_hour e < 2 ^ 63)%Z ->
  is_Some (ParseFloat (entry_lat e)) -> is_Some (ParseFloat (entry_lng e)) ->
  exists st, decode_Structure (entry_json e) = inl st /\ decodes_to e st.
Proof.
  intros Hh [lat Hlat] [lng Hlng].
  exists (mkStructure (entry_date e) lat lng (entry_hour e)). split; [|done].
  unfold decode_Structure, entry_json, decode_members, set_field.
  change (same_field "date" "Date") with true.
  change (same_field "lat" "Date") with false.
  change (same_field "lat" "Lat") with true.
  change (same_field "lng" "Date") with false.
  change (same_field "lng" "Lat") with false.
  change (same_field "lng" "Lng") with true.
  change (same_field "hour" "Date") with false.
  change (same_field "hour" "Lat") with false.
  change (same_field "hour" "Lng") with false.
  change (same_field "hour" "Hour") with true.
  cbv iota. rewrite Hlat. cbv iota. rewrite Hlng. cbv iota.
  by rewrite ParseInt_itoa.
Qed.

Lemma decode_entries es :
  Forall (fun e => (- 2 ^ 63 <= entry_hour e < 2 ^ 63)%Z /\
                   is_Some (ParseFloat (entry_lat e)) /\
                   is_Some (ParseFloat (entry_lng e))) es ->
  exists data, decode_elements (map entry_json es) = inl data /\
               Forall2 decodes_to es data.
Proof.
  induction 1 as [|e es (Hh & Hlat & Hlng) _ (data & Hd & Hall)].
  - by exists [].
  - destruct (decode_entry e Hh Hlat Hlng) as (st & Hst & He).
    exists (st :: data). split; [|by constructor].
    cbn [map decode_elements]. by rewrite Hst, Hd.
Qed.

(** C10: for a file holding an array of objects with a date, a latitude, a
    longitude and an hour, [ReadJSON] returns one structure for each object
    with the hour of the object, whatever that hour is within the range of
    [int] and whatever numbers [ParseFloat] accepts as latitude and
    longitude: no range is tested.  [initializePipeline] starts the
    pipeline with exactly these structures for main to send, and a worker
    that has received any structure can run its lookup. *)
Theorem ReadJSON_tests_no_range fs filePath content (es : list Entry) :
  fs filePath = Opened content ->
  json_scan content = inl (JArray (map entry_json es)) ->
  Forall (fun e => (- 2 ^ 63 <= entry_hour e < 2 ^ 63)%Z /\
                   is_Some (ParseFloat (entry_lat e)) /\
                   is_Some (ParseFloat (entry_lng e))) es ->
  exists data,
    ReadJSON fs filePath = (data, None) /\
    Forall2 decodes_to es data /\
    map Hour data = map entry_hour es /\
    (forall workerCount, (0 <= workerCount)%Z ->
       initializePipeline fs filePath workerCount =
         Running (start data (Z.to_nat workerCount)) /\
       main (start data (Z.to_nat workerCount)) = MSend data) /\
    (forall s w st client_Get,
       workers s !! w = Some (WLookup st) ->
       exists e s', exec s (ALookup w client_Get) = Some (e, s')).
Proof.
  intros Hfs Hscan Hall.
  destruct (decode_entries es Hall) as (data & Hd & H2).
  assert (Hr : ReadJSON fs filePath = (data, None)).
  { unfold ReadJSON. rewrite Hfs, Hscan. simpl. by rewrite Hd. }
  exists data. split; [done|]. split; [done|]. split; [|split].
  - clear -H2. induction H2 as [|e st es data (_ & _ & _ & Hh) _ IH]; [done|].
    simpl. by rewrite Hh, IH.
  - intros k Hk. unfold initializePipeline. rewrite Hr.
    by destruct (Z.ltb_spec k 0); [lia|].
  - intros s w st g Hw. unfold exec. rewrite Hw.
    destruct (FindSunsetHour g st). eauto.
Qed.

(** *** The number of workers *)

Lemma main_func_ten fs Args s :
  main_func fs Args = Running s ->
  requestCapacity s = 10 /\ length (workers s) = 10 /\
  workerCount (resultMonitor s) = 10%Z.
Proof.
  unfold main_func, initializePipeline. destruct (length Args <? 2)%nat; [done|].
  simpl. destruct (ReadJSON fs _) as [data [err|]]; [done|].
  by intros [= <-].
Qed.

(** *** No workers *)

Lemma idle_inv_step t s e s' :
  idle_inv t s -> step s e s' -> idle_inv (t ++ [e]) s'.
Proof.
  intros [Hw Hd Hde Hs Hp] Hst.
  destruct Hst; try (rewrite Hw in *; done);
    split; trace_simpl; simpl; try done.
  apply Forall_app. split; [done|]. by constructor.
Qed.

Lemma Run_idle_inv data t s : Run (start data 0) t s -> idle_inv t s.
Proof.
  apply (Run_invariant idle_inv); [by split|].
  eauto using idle_inv_step.
Qed.

(** C7, as the code has it: [initializePipeline] tests nothing about the
    number of workers.  With the count 0 and an input that reads without
    error the pipeline is started.  In every run from there no record is
    handed out and nothing is sent to the result monitor, so whatever is
    published is empty; and the run in which main sends every record, closes
    the input and receives the final data ends with the whole input still
    in the queue of the data monitor and with the report [Count: 0]. *)
Theorem zero_workers_run fs inputFilePath data :
  ReadJSON fs inputFilePath = (data, None) ->
  initializePipeline fs inputFilePath 0 = Running (start data 0) /\
  (forall t s, Run (start data 0) t s ->
     delivered t = [] /\ submitted t = [] /\
     Forall (fun l => l = []) (published t)) /\
  exists t s,
    run (start data 0) (repeat ASendData (length data) ++ [ANoMoreData; AFinal])
      = Some (t, s) /\
    main s = MDone [] /\
    dm_data (dataMonitor s) = data /\
    closed s = false /\
    report Created s = Some (Content ("Count: 0" +:+ LF)).
Proof.
  intros Hr. split; [|split].
  - unfold initializePipeline. by rewrite Hr.
  - intros t s Hrun. by destruct (Run_idle_inv _ _ _ Hrun).
  - destruct (send_all data (start data 0) eq_refl eq_refl) as (s1 & H1 & Hs1).
    eexists _, _. split.
    + eapply run_app; [exact H1|]. by subst s1.
    + by subst s1.
Qed.

(** * Further properties of the pipeline *)

Lemma looked_up_snoc t e : looked_up (t ++ [e]) = looked_up t ++ looked_up [e].
Proof. apply omap_app. Qed.

Lemma count_exists f (ws : list Worker) :
  0 < count f ws -> exists w x, ws !! w = Some x /\ f x = true.
Proof.
  unfold count. induction ws as [|p ws IH]; simpl; [lia|].
  destruct (f p) eqn:Hp.
  - intros _. by exists 0, p.
  - intros Hc. destruct (IH Hc) as (w & x & Hw & Hx). by exists (S w), x.
Qed.

Lemma open_workers input n t s w p :
  Run (start input n) t s -> closed s = false -> workers s !! w = Some p ->
  p <> WStatus /\ p <> WExit.
Proof.
  intros Hrun Hc Hw. destruct (Run_count_inv _ _ _ _ Hrun) as [_ _ _ _ Hcl _ _ _].
  split; intros ->; (assert (closed s = true) by (apply (Hcl w); auto));
    congruence.
Qed.

Lemma nothing_runs_after_done input n t s l :
  Run (start input n) t s -> 0 < n -> main s = MDone l ->
  forall w p, workers s !! w = Some p -> p = WExit.
Proof.
  intros Hrun Hn Hm. destruct (final_data_published _ _ _ _ _ Hrun Hm) as [Hret _].
  destruct (Run_count_inv _ _ _ _ Hrun) as [_ _ _ _ _ _ _ Hzero].
  exact (all_exited _ _ _ _ Hrun (Hzero Hret)).
Qed.

(** The data monitor hands the input out in its order: what the workers
    were given so far, in the order in which it was given, is a prefix of
    the input, and together with the queue and with what main has not sent
    it is the input.  So no record is given out twice or skipped, at most as
    many records are given out as were read, and when the response channel
    is closed all of them have been given out. *)
Theorem handed_out_in_input_order input n t s :
  Run (start input n) t s ->
  (delivered t).*2 `prefix_of` input /\
  (delivered t).*2 ++ dm_data (dataMonitor s) ++ unsent s = input /\
  length (delivered t) <= length input /\
  (closed s = true ->
     (delivered t).*2 = input /\ dm_data (dataMonitor s) = [] /\ unsent s = []).
Proof.
  intros Hrun. destruct (delivery_in_order _ _ _ _ Hrun) as [Hall Hcl].
  split; [by eexists|]. split; [done|]. split.
  - rewrite <- Hall, !length_app, length_fmap. lia.
  - intros Hc. specialize (Hcl Hc). split; [done|].
    rewrite Hcl in Hall. apply (f_equal length) in Hall.
    rewrite !length_app in Hall.
    split; apply length_zero_iff_nil; lia.
Qed.

(** The request channel is made with room for one value for each worker,
    and that is enough: it never holds more than [n] values, and a worker
    that is about to send its request finds room, so that send never
    blocks. *)
Theorem request_send_never_blocks input n t s :
  Run (start input n) t s ->
  requestChannel s <= n /\
  (forall w, workers s !! w = Some WRequest ->
     exec s (ARequest w) =
     Some (EvRequest w,
           set_worker w WReceive (set_requestChannel (S (requestChannel s)) s))).
Proof.
  intros Hrun. destruct (Run_request_inv _ _ _ _ Hrun) as [Hl Hc Hb]. split.
  - pose proof (count_le unanswered (workers s)). lia.
  - intros w Hw. pose proof (request_has_room _ _ _ _ _ Hrun Hw) as Hlt.
    unfold exec. rewrite Hw.
    by destruct (Nat.ltb_spec (requestChannel s) (requestCapacity s)); [|lia].
Qed.

(** When the data monitor is at [responseDataChannel <- data[0]] its queue
    is not empty and some worker is blocked on the receive, so the send can
    be completed. *)
Theorem response_has_receiver input n t s :
  Run (start input n) t s -> dm_pc (dataMonitor s) = DRespond ->
  exists w data0 rest,
    dm_data (dataMonitor s) = data0 :: rest /\
    workers s !! w = Some WReceive /\
    exec s (ARespond w) =
    Some (EvDeliver w data0,
          set_worker w (WLookup data0)
            (set_dataMonitor
               (mkDataMonitor DSelect rest (noMoreData (dataMonitor s))) s)).
Proof.
  intros Hrun Hpc.
  destruct (Run_request_inv _ _ _ _ Hrun) as [_ _ Hb].
  destruct (Run_queue_inv _ _ _ _ Hrun) as [_ _ _ _ Hq].
  unfold responding in Hb. rewrite Hpc in Hb.
  destruct (count_exists unanswered (workers s)) as (w & p & Hw & Hp); [lia|].
  assert (Hc : closed s = false) by (unfold closed; by rewrite Hpc).
  destruct (open_workers _ _ _ _ _ _ Hrun Hc Hw) as [Hs He].
  destruct p; try done.
  destruct (dm_data (dataMonitor s)) as [|data0 rest] eqn:Hd; [by destruct (Hq Hpc)|].
  exists w, data0, rest. split; [done|]. split; [done|].
  unfold exec. by rewrite Hpc, Hd, Hw.
Qed.

(** A worker leaves its loop only when the response channel is closed, that
    is after the input was closed and all of it was handed out; and its send
    on [workerStatusChannel] never blocks, because the result monitor is
    still in its loop. *)
Theorem worker_leaves_after_end input n t s w :
  Run (start input n) t s ->
  (workers s !! w = Some WStatus \/ workers s !! w = Some WExit ->
     closed s = true /\ noMoreData (dataMonitor s) = true /\
     (delivered t).*2 = input) /\
  (workers s !! w = Some WStatus ->
     exec s (AStatus w) =
     Some (EvWorkerDone w,
           set_worker w WExit
             (set_resultMonitor
                (mkResultMonitor (rm_data (resultMonitor s))
                   (workerCount (resultMonitor s) - 1)
                   (rm_returned (resultMonitor s))) s))).
Proof.
  intros Hrun. split.
  - intros Hw. destruct (Run_count_inv _ _ _ _ Hrun) as [_ _ _ _ Hcl _ _ _].
    destruct (Run_queue_inv _ _ _ _ Hrun) as [_ _ _ Hr _].
    assert (Hc : closed s = true) by eauto.
    split; [done|]. split; [by apply Hr|]. by apply (delivery_in_order _ _ _ _ Hrun).
  - intros Hw. pose proof (live_counted _ _ _ _ _ _ Hrun Hw eq_refl) as Hpos.
    unfold exec. rewrite Hw.
    by destruct (Z.ltb_spec 0 (workerCount (resultMonitor s))); [|lia].
Qed.

(** With at least one worker, when main has received the final data every
    goroutine has returned: the data monitor after closing the response
    channel, every worker, and the result monitor; no step is left. *)
Theorem nothing_runs_after_final_data input n t s l :
  Run (start input n) t s -> 0 < n -> main s = MDone l ->
  closed s = true /\
  rm_returned (resultMonitor s) = true /\
  (forall w p, workers s !! w = Some p -> p = WExit) /\
  (forall a, exec s a = None).
Proof.
  intros Hrun Hn Hm.
  destruct (final_data_published _ _ _ _ _ Hrun Hm) as [Hret Hp].
  destruct (published_after_delivery _ _ _ _ Hrun Hn) as [Hc _];
    [by rewrite Hp|].
  destruct (Run_count_inv _ _ _ _ Hrun) as [_ _ _ _ _ _ _ Hzero].
  pose proof (all_exited _ _ _ _ Hrun (Hzero Hret)) as Hall.
  split; [done|]. split; [done|]. split; [done|].
  intros a. unfold closed in Hc. unfold exec.
  destruct (dm_pc (dataMonitor s)); try discriminate.
  destruct a; rewrite ?Hm; try done;
    (destruct (workers s !! w) as [p|] eqn:Hw; [|done]);
    by rewrite (Hall _ _ Hw).
Qed.

Lemma all_or_some (f : Worker -> bool) (ws : list Worker) :
  (forall w p, ws !! w = Some p -> f p = true) \/
  (exists w p, ws !! w = Some p /\ f p = false).
Proof.
  induction ws as [|q ws [IH|(w & p & Hw & Hp)]].
  - left. intros w p Hw. by rewrite lookup_nil in Hw.
  - destruct (f q) eqn:Hq.
    + left. intros [|w] p Hw; simplify_eq/=; eauto.
    + right. by exists 0, q.
  - right. by exists (S w), p.
Qed.

Lemma worker_can_step input n t s w p :
  Run (start input n) t s -> workers s !! w = Some p -> p <> WExit ->
  (p = WReceive -> closed s = true) ->
  exists a e s', exec s a = Some (e, s') /\ e <> EvPoll.
Proof.
  intros Hrun Hw Hne Hrecv. destruct p; try done.
  - exists (ARequest w). pose proof (request_has_room _ _ _ _ _ Hrun Hw) as Hlt.
    unfold exec. rewrite Hw.
    destruct (Nat.ltb_spec (requestChannel s) (requestCapacity s)); [|lia].
    by eexists _, _.
  - exists (AClosed w). specialize (Hrecv eq_refl). unfold closed in Hrecv.
    unfold exec. rewrite Hw.
    destruct (dm_pc (dataMonitor s)); try done. by eexists _, _.
  - exists (ALookup w (fun _ => GetFailed EmptyString)). unfold exec. rewrite Hw.
    destruct (FindSunsetHour _ data). by eexists _, _.
  - exists (ASubmit w). pose proof (live_counted _ _ _ _ _ _ Hrun Hw eq_refl) as Hpos.
    unfold exec. rewrite Hw.
    destruct (Z.ltb_spec 0 (workerCount (resultMonitor s))); [|lia].
    by eexists _, _.
  - exists (AStatus w). pose proof (live_counted _ _ _ _ _ _ Hrun Hw eq_refl) as Hpos.
    unfold exec. rewrite Hw.
    destruct (Z.ltb_spec 0 (workerCount (resultMonitor s))); [|lia].
    by eexists _, _.
Qed.

(** With at least one worker, the pipeline can stop making progress in one
    way only.  In every state of a run either some goroutine can take a step
    other than the idle [default] case of the data monitor, or main has
    received the final data, or the state is the one reached by losing
    requests: main waits for the final data, the queue is not empty, the
    request channel is empty and every worker is blocked on the receive. *)
Theorem only_lost_requests_block input n t s :
  Run (start input n) t s -> 0 < n ->
  (exists a e s', exec s a = Some (e, s') /\ e <> EvPoll) \/
  (exists l, main s = MDone l) \/
  hung s.
Proof.
  intros Hrun Hn.
  destruct (Run_queue_inv _ _ _ _ Hrun) as [_ _ Hnm Hret Hresp].
  destruct (Run_request_inv _ _ _ _ Hrun) as [Hlen _ Hb].
  destruct (Run_count_inv _ _ _ _ Hrun) as [Hlive _ _ _ _ _ Hmain _].
  destruct (dm_pc (dataMonitor s)) eqn:Hpc.
  - (* at the select *)
    assert (Hc : closed s = false) by (unfold closed; by rewrite Hpc).
    destruct (main s) as [rest| |l] eqn:Hm; [| |by right; left; eexists].
    { left. destruct rest as [|value rest].
      - exists ANoMoreData. unfold exec. rewrite Hm, Hpc. by eexists _, _.
      - exists ASendData. unfold exec. rewrite Hm, Hpc. by eexists _, _. }
    destruct (requestChannel s) as [|k] eqn:Hr.
    2: { left. exists ATakeRequest. unfold exec. rewrite Hpc, Hr.
         destruct (0 <? length (dm_data (dataMonitor s)))%nat; by eexists _, _. }
    unfold sending in Hnm. rewrite Hm in Hnm. simpl in Hnm.
    destruct (dm_data (dataMonitor s)) as [|data0 rest] eqn:Hd.
    { left. exists ADefault. unfold exec. rewrite Hpc, Hr, Hnm, Hd. by eexists _, _. }
    destruct (all_or_some receiving (workers s)) as [Hall|(w & p & Hw & Hp)].
    + right. right. split; try done.
      * by rewrite Hd.
      * intros w p Hw. specialize (Hall _ _ Hw). by destruct p.
      * destruct (lookup_lt_is_Some_2 (workers s) 0) as [p Hw]; [lia|].
        pose proof (Hall _ _ Hw). destruct p; try done.
        by apply (live_counted _ _ _ _ _ _ Hrun Hw).
    + left. eapply worker_can_step; eauto.
      * by destruct (open_workers _ _ _ _ _ _ Hrun Hc Hw).
      * intros ->. done.
  - (* at the response *)
    left. assert (Hc : closed s = false) by (unfold closed; by rewrite Hpc).
    unfold responding in Hb. rewrite Hpc in Hb.
    destruct (count_exists unanswered (workers s)) as (w & p & Hw & Hp); [lia|].
    destruct (open_workers _ _ _ _ _ _ Hrun Hc Hw) as [Hs He].
    destruct p; try done.
    destruct (dm_data (dataMonitor s)) as [|data0 rest] eqn:Hd; [by destruct (Hresp eq_refl)|].
    exists (ARespond w). unfold exec. rewrite Hpc, Hd, Hw. by eexists _, _.
  - (* returned *)
    assert (Hc : closed s = true) by (unfold closed; by rewrite Hpc).
    destruct (main s) as [rest| |l] eqn:Hm; [| |by right; left; eexists].
    { destruct (Hret Hc) as [Hn' _]. unfold sending in Hnm.
      rewrite Hm, Hn' in Hnm. discriminate. }
    left. destruct (all_or_some (fun p => negb (live p)) (workers s))
      as [Hall|(w & p & Hw & Hp)].
    + exists AFinal. unfold exec. rewrite Hm.
      assert (Hz : count live (workers s) = 0).
      { destruct (count live (workers s)) eqn:Hcnt; [done|].
        destruct (count_exists live (workers s)) as (w & p & Hw & Hp); [lia|].
        specialize (Hall _ _ Hw). rewrite Hp in Hall. discriminate. }
      rewrite Hlive, Hz, Hmain. by eexists _, _.
    + eapply worker_can_step; eauto. intros ->. done.
Qed.

(** *** Lookups *)

Lemma lookup_inv_step t s e s' :
  looked_up t ++ in_lookup s ≡ₚ (delivered t).*2 -> step s e s' ->
  looked_up (t ++ [e]) ++ in_lookup s' ≡ₚ (delivered (t ++ [e])).*2.
Proof.
  intros Hinv Hst.
  destruct Hst; rewrite looked_up_snoc; trace_simpl; unfold in_lookup in *;
    cbn [looked_up omap list_omap]; simpl; rewrite ?app_nil_r; try done;
    match goal with
    | Hw : workers _ !! _ = Some _ |- context [omap lookup_of (<[_ := ?y]> _)] =>
        pose proof (omap_insert lookup_of _ _ _ y Hw) as Hp; simpl in Hp;
        rewrite ?app_nil_r in Hp
    end.
  - by rewrite Hp.
  - rewrite Hp, app_assoc. by f_equiv.
  - by rewrite Hp.
  - assert (Hb : lookup_of (worker_body client_Get data) = None)
      by (by destruct (worker_body_cases client_Get data) as [->|[c ->]]).
    rewrite Hb in Hp. simpl in Hp. rewrite app_nil_r in Hp.
    rewrite <- Hinv, <- Hp, <- !app_assoc. f_equiv. apply Permutation_app_comm.
  - by rewrite Hp.
  - by rewrite Hp.
Qed.

Lemma Run_lookup_inv input n t s :
  Run (start input n) t s -> looked_up t ++ in_lookup s ≡ₚ (delivered t).*2.
Proof.
  apply (Run_invariant (fun t s => looked_up t ++ in_lookup s ≡ₚ (delivered t).*2)).
  - unfold in_lookup. simpl. induction n; simpl; auto.
  - eauto using lookup_inv_step.
Qed.

Lemma matches_le_looked_up t : length (matches t) <= length (looked_up t).
Proof.
  induction t as [|e t IH]; simpl; [lia|].
  destruct e; simpl; try done.
  destruct (match_of data sunsetHour err); simpl; lia.
Qed.

Lemma matches_answered client_Get t :
  Forall (answered_by client_Get) t ->
  matches t = omap (match_by client_Get) (looked_up t).
Proof.
  induction 1 as [|e t He _ IH]; [done|].
  destruct e; simpl in *; try done.
  unfold match_by at 1. rewrite He. simpl. by rewrite IH.
Qed.

Lemma nothing_in_lookup (ws : list Worker) :
  (forall w p, ws !! w = Some p -> p = WExit) -> omap lookup_of ws = [].
Proof.
  induction ws as [|p ws IH]; intros Hall; [done|]. simpl.
  rewrite (Hall 0 p eq_refl). simpl. apply IH. intros w q Hw. by apply (Hall (S w)).
Qed.

Section Accounting.
Context `{!SortSliceSpec}.

(** Every record a worker was given is looked up by it at most once, and
    exactly once when the run is over: the records looked up so far and the
    records held by workers that have not run their lookup yet are, up to
    order, the records handed out.  When main has the final data, it has no
    more elements than lookups were run and than records were read, and with
    at least one worker the records looked up are the input. *)
Theorem each_record_looked_up_once input n t s :
  Run (start input n) t s ->
  looked_up t ++ in_lookup s ≡ₚ (delivered t).*2 /\
  (forall l, main s = MDone l ->
     length l <= length (looked_up t) /\
     length l <= length input /\
     (0 < n -> looked_up t ≡ₚ input)).
Proof.
  intros Hrun. pose proof (Run_lookup_inv _ _ _ _ Hrun) as Hinv.
  split; [done|]. intros l Hm.
  destruct (final_data _ _ _ _ _ Hrun Hm) as (_ & _ & Hp & Hpub).
  destruct (delivery_in_order _ _ _ _ Hrun) as [Hall Hcl].
  pose proof (matches_le_looked_up t) as Hle.
  assert (Hlen : length (looked_up t) <= length input).
  { apply Permutation_length in Hinv. rewrite <- Hall.
    rewrite !length_app in *. lia. }
  split; [by rewrite Hp|]. split; [rewrite Hp; lia|].
  intros Hn.
  destruct (published_after_delivery _ _ _ _ Hrun Hn) as [Hc Hd];
    [by rewrite Hpub|].
  pose proof (nothing_runs_after_done _ _ _ _ _ Hrun Hn Hm) as Hex.
  unfold in_lookup in Hinv. rewrite (nothing_in_lookup _ Hex), app_nil_r in Hinv.
  by rewrite Hinv, Hd.
Qed.

(** The data main receives does not depend on the schedule: with at least
    one worker, if in a run every lookup was answered as [client_Get]
    answers, the final data is, up to order, the matches that [client_Get]
    gives for the records of the input, and it is in ascending order of
    [Hour]. *)
Theorem final_data_independent_of_schedule input n t s l client_Get :
  Run (start input n) t s -> 0 < n ->
  Forall (answered_by client_Get) t -> main s = MDone l ->
  l ≡ₚ omap (match_by client_Get) input /\ ascending_Hour l.
Proof.
  intros Hrun Hn Hans Hm.
  destruct (final_data _ _ _ _ _ Hrun Hm) as (-> & _ & Hp & Hpub).
  pose proof (Run_lookup_inv _ _ _ _ Hrun) as Hinv.
  destruct (published_after_delivery _ _ _ _ Hrun Hn) as [Hc Hd];
    [by rewrite Hpub|].
  pose proof (nothing_runs_after_done _ _ _ _ _ Hrun Hn Hm) as Hex.
  unfold in_lookup in Hinv. rewrite (nothing_in_lookup _ Hex), app_nil_r, Hd in Hinv.
  split.
  - by rewrite Hp, (matches_answered client_Get), Hinv.
  - apply ascending_less_Hour. by destruct (Run_result_inv _ _ _ _ Hrun).
Qed.

End Accounting.

(** *** The lookup *)

(** [FindSunsetHour] asks for one URL, made of the latitude and longitude
    with six decimals and of the date as it is; it returns an hour and no
    error exactly when the answer for that URL was decoded, has the status
    [OK] and a sunset time that parses, and the hour is then the hour of
    that time; whenever it returns an error the hour is [-1]. *)
Theorem FindSunsetHour_result client_Get data :
  apiURL data =
    "https://api.sunrise-sunset.org/json?lat=" +:+ FormatFloat (Lat data) 6 +:+
    "&lng=" +:+ FormatFloat (Lng data) 6 +:+ "&date=" +:+ Date data /\
  (forall h,
     FindSunsetHour client_Get data = (h, None) <->
     exists result sunsetTime,
       client_Get (apiURL data) = Decoded result /\
       Status result = "OK" /\
       time_Parse "3:04:05 PM" (Results_Sunset result) = inl sunsetTime /\
       h = time_Hour sunsetTime) /\
  (forall h err, FindSunsetHour client_Get data = (h, Some err) -> h = (-1)%Z).
Proof.
  split; [|split].
  - unfold apiURL. simpl. by rewrite append_empty_r.
  - intros h. unfold FindSunsetHour. split.
    + destruct (client_Get (apiURL data)) as [e|e|result]; try done.
      destruct (String.eqb_spec (Status result) "OK") as [Hok|Hne]; simpl; [|done].
      destruct (time_Parse _ _) as [tm|e] eqn:Hp; [|done].
      intros [= <-]. by exists result, tm.
    + intros (result & tm & -> & Hok & Hp & ->). by rewrite Hok, Hp.
  - intros h err. unfold FindSunsetHour.
    destruct (client_Get (apiURL data)) as [e|e|result]; try (by intros [= <- _]).
    destruct (negb _); [by intros [= <- _]|].
    destruct (time_Parse _ _); [done|by intros [= <- _]].
Qed.

(** *** Decoding the input *)

Lemma set_field_not_stored key value st :
  stored (key, value) = false -> set_field key value st = inl st.
Proof.
  unfold stored, set_field. simpl.
  destruct (same_field key "Date"), (same_field key "Lat"),
    (same_field key "Lng"), (same_field key "Hour"); simpl; try done;
    by destruct value.
Qed.

(** Members of an input object whose key is not the name of a field of
    [Structure] (up to the case of letters), and members whose value is
    [null], are skipped wherever they stand: decoding the object is decoding
    the members that are left.  An object with no other members, and a
    [null] in place of an object, give the zero structure; no member is
    required. *)
Theorem unknown_and_null_members_skipped members :
  (forall st,
     decode_members members st = decode_members (List.filter stored members) st) /\
  (forallb (fun m => negb (stored m)) members = true ->
     decode_Structure (JObject members) = inl zero_Structure) /\
  decode_Structure JNull = inl zero_Structure.
Proof.
  assert (Hf : forall st, decode_members members st =
                          decode_members (List.filter stored members) st).
  { induction members as [|[key value] members IH]; intros st; [done|].
    simpl. destruct (stored (key, value)) eqn:Hs; simpl.
    - destruct (set_field key value st); [apply IH|done].
    - rewrite set_field_not_stored by done. apply IH. }
  split; [done|]. split; [|done].
  intros Hall. simpl. rewrite Hf.
  replace (List.filter stored members) with (@nil (string * json)); [done|].
  clear Hf. induction members as [|m members IH]; [done|].
  simpl in *. apply andb_true_iff in Hall as [Hm Hall].
  apply negb_true_iff in Hm. rewrite Hm. by apply IH.
Qed.

Lemma decode_members_error members : forall st key value,
  (key, value) ∈ members ->
  (forall st', exists err, set_field key value st' = inr err) ->
  exists err, decode_members members st = inr err.
Proof.
  induction members as [|[k v] members IH]; intros st key value Hin Hbad.
  - by apply elem_of_nil in Hin.
  - simpl. destruct (set_field k v st) as [st'|err] eqn:Hs; [|by eexists].
    apply elem_of_cons in Hin as [[= <- <-]|Hin].
    + destruct (Hbad st) as [err Herr]. congruence.
    + eauto.
Qed.

Lemma decode_elements_error items : forall item err,
  item ∈ items -> decode_Structure item = inr err ->
  exists err', decode_elements items = inr err'.
Proof.
  induction items as [|v items IH]; intros item err Hin Hbad.
  - by apply elem_of_nil in Hin.
  - simpl. destruct (decode_Structure v) as [st|e] eqn:Hv; [|by eexists].
    apply elem_of_cons in Hin as [->|Hin]; [congruence|].
    destruct (IH _ _ Hin Hbad) as [err' ->]. by eexists.
Qed.

Lemma Sprintf_error err : Sprintf "Error: %v" [OpString err] = "Error: " +:+ err.
Proof. simpl. by rewrite append_empty_r. Qed.

(** The input is read whole or not at all: if anywhere in the array one
    object has an hour whose text is not that of an [int] (a fraction, an
    exponent, a number beyond 64 bits), [ReadJSON] returns an error and no
    data, and [initializePipeline] ends the process with that error before
    it starts any goroutine. *)
Theorem one_bad_hour_rejects_input fs filePath content items members key text
    workerCount :
  fs filePath = Opened content ->
  json_scan content = inl (JArray items) ->
  JObject members ∈ items ->
  (key, JNumber text) ∈ members ->
  same_field key "Hour" = true ->
  ParseInt text = None ->
  (0 <= workerCount)%Z ->
  exists err,
    ReadJSON fs filePath = ([], Some err) /\
    initializePipeline fs filePath workerCount = FatalError ("Error: " +:+ err).
Proof.
  intros Hfs Hscan Hitem Hmem Hkey Hint Hwc.
  assert (Hset : forall st, exists err, set_field key (JNumber text) st = inr err).
  { intros st. unfold set_field. unfold same_field in *.
    apply String.eqb_eq in Hkey. rewrite Hkey. simpl. rewrite Hint. by eexists. }
  destruct (decode_members_error members zero_Structure _ _ Hmem Hset) as [e He].
  destruct (decode_elements_error items (JObject members) e Hitem He) as [err Herr].
  assert (Hr : ReadJSON fs filePath = ([], Some err)).
  { unfold ReadJSON. rewrite Hfs, Hscan. simpl. by rewrite Herr. }
  exists err. split; [done|].
  unfold initializePipeline. rewrite Hr, Sprintf_error.
  by destruct (Z.ltb_spec workerCount 0); [lia|].
Qed.

(** How the set-up fails.  A negative number of workers panics in [make],
    before the input is looked at.  Otherwise [ReadJSON] returns an error,
    and then no data, exactly when the file cannot be opened, its text is
    not JSON, or the JSON value does not decode into a slice of structures;
    the process then ends with [Error: ] and that error, and no goroutine
    is started. *)
Theorem setup_failures fs filePath workerCount :
  ((workerCount < 0)%Z ->
     initializePipeline fs filePath workerCount = Panic "makechan: size out of range") /\
  (forall data err,
     ReadJSON fs filePath = (data, Some err) <->
     data = [] /\
     (fs filePath = OpenFailed err \/
      exists content, fs filePath = Opened content /\
        (json_scan content = inr err \/
         exists v, json_scan content = inl v /\ decode_slice v = inr err))) /\
  ((0 <= workerCount)%Z -> forall data err,
     ReadJSON fs filePath = (data, Some err) ->
     initializePipeline fs filePath workerCount = FatalError ("Error: " +:+ err)).
Proof.
  split; [|split].
  - intros Hneg. unfold initializePipeline.
    by destruct (Z.ltb_spec workerCount 0); [|lia].
  - intros data err. unfold ReadJSON. split.
    + destruct (fs filePath) as [e|content]; [intros [= <- <-]; auto|].
      destruct (json_scan content) as [v|e] eqn:Hs.
      * destruct (decode_slice v) eqn:Hd; [done|].
        intros [= <- <-]. split; [done|]. right. exists content. split; [done|].
        right. by exists v.
      * intros [= <- <-]. split; [done|]. right. exists content. auto.
    + intros [-> [->|(content & -> & [->|(v & -> & ->)])]]; done.
  - intros Hwc data err Hr. unfold initializePipeline. rewrite Hr, Sprintf_error.
    by destruct (Z.ltb_spec workerCount 0); [lia|].
Qed.

(** *** A run that completes *)

Lemma run_answered client_Get schedule : forall s t s',
  run s schedule = Some (t, s') -> Forall (asks client_Get) schedule ->
  Forall (answered_by client_Get) t.
Proof.
  induction schedule as [|a schedule IH]; intros s t s' Hrun Hall; simpl in Hrun.
  - by simplify_eq.
  - destruct (exec s a) as [[e s1]|] eqn:Hex; [|done].
    destruct (run s1 schedule) as [[t1 s2]|] eqn:Hr; [|done]. simplify_eq.
    apply Forall_cons in Hall as [Ha Hall].
    constructor; [|eauto].
    destruct a; unfold exec in Hex; repeat (case_match; try discriminate);
      simplify_eq; try done.
    simpl in *. by subst.
Qed.

Lemma serve_one client_Get r q m nm c rd wc ws :
  (0 < wc)%Z ->
  exists t rd',
    run (mkState m (mkDataMonitor DSelect (r :: q) nm) 0 (S c)
           (mkResultMonitor rd wc false) (WRequest :: ws))
      (serve client_Get r)
    = Some (t, mkState m (mkDataMonitor DSelect q nm) 0 (S c)
                 (mkResultMonitor rd' wc false) (WRequest :: ws)).
Proof.
  intros Hwc. assert (Hpos : (0 <? wc)%Z = true) by (by apply Z.ltb_lt).
  unfold serve, match_by, match_of.
  destruct (FindSunsetHour client_Get r) as [h [err|]] eqn:Hf; cbn [fst snd].
  - unfold run, exec, worker_body. simpl. rewrite !Hf. simpl. by eexists _, _.
  - destruct (h =? Hour r)%Z eqn:Heq.
    + unfold run, exec, worker_body. simpl. rewrite !Hf. simpl. rewrite Heq. simpl.
      rewrite Hpos. simpl. by eexists _, _.
    + unfold run, exec, worker_body. simpl. rewrite !Hf. simpl. rewrite Heq. simpl.
      by eexists _, _.
Qed.

Lemma serve_phase client_Get q : forall m nm c rd wc ws,
  (0 < wc)%Z ->
  exists t rd',
    run (mkState m (mkDataMonitor DSelect q nm) 0 (S c)
           (mkResultMonitor rd wc false) (WRequest :: ws))
      (flat_map (serve client_Get) q)
    = Some (t, mkState m (mkDataMonitor DSelect [] nm) 0 (S c)
                 (mkResultMonitor rd' wc false) (WRequest :: ws)).
Proof.
  induction q as [|r q IH]; intros m nm c rd wc ws Hwc.
  - by exists [], rd.
  - destruct (serve_one client_Get r q m nm c rd wc ws Hwc) as (t1 & rd1 & H1).
    destruct (IH m nm c rd1 wc ws Hwc) as (t2 & rd2 & H2).
    exists (t1 ++ t2), rd2. cbn [flat_map]. by eapply run_app.
Qed.

Lemma lookup_middle (x y : Worker) k l : (replicate k x ++ y :: l) !! k = Some y.
Proof. rewrite lookup_app_r, length_replicate, Nat.sub_diag; [done|]. by rewrite length_replicate. Qed.

Lemma insert_middle (x y z : Worker) k l :
  <[k := z]> (replicate k x ++ y :: l) = replicate k x ++ z :: l.
Proof.
  rewrite insert_app_r_alt, length_replicate, Nat.sub_diag; [done|].
  by rewrite length_replicate.
Qed.

Lemma leave_phase j : forall k m q nm rd rr,
  exists t,
    run (mkState m (mkDataMonitor DReturned q nm) k (k + j)
           (mkResultMonitor rd (Z.of_nat j) rr)
           (replicate k WExit ++ replicate j WRequest))
      (flat_map leave (seq k j))
    = Some (t, mkState m (mkDataMonitor DReturned q nm) (k + j) (k + j)
                 (mkResultMonitor rd 0 rr) (replicate (k + j) WExit)).
Proof.
  induction j as [|j IH]; intros k m q nm rd rr.
  - exists []. simpl. by rewrite Nat.add_0_r, app_nil_r.
  - destruct (IH (S k) m q nm rd rr) as [t Ht].
    eexists. cbn [seq flat_map]. eapply run_app; [|].
    + unfold leave, run, exec. cbn [workers dataMonitor dm_pc requestChannel
        requestCapacity resultMonitor workerCount replicate].
      rewrite lookup_middle.
      destruct (Nat.ltb_spec k (k + S j)) as [_|?]; [|lia].
      unfold set_worker, set_requestChannel. cbn [workers dataMonitor dm_pc
        requestChannel requestCapacity resultMonitor workerCount main].
      rewrite insert_middle, lookup_middle.
      cbn [workers dataMonitor dm_pc requestChannel requestCapacity
           resultMonitor workerCount main rm_data rm_returned].
      rewrite insert_middle, lookup_middle.
      destruct (Z.ltb_spec 0 (Z.of_nat (S j))) as [_|?]; [|lia].
      unfold set_resultMonitor. cbn [workers dataMonitor dm_pc requestChannel
        requestCapacity resultMonitor workerCount main rm_data rm_returned].
      rewrite insert_middle. reflexivity.
    + replace (Z.of_nat (S j) - 1)%Z with (Z.of_nat j) by lia.
      replace (k + S j) with (S k + j) by lia.
      replace (replicate k WExit ++ WExit :: replicate j WRequest)
        with (replicate (S k) WExit ++ replicate j WRequest).
      * exact Ht.
      * simpl. by rewrite app_comm_cons, replicate_cons_app, <- app_assoc.
Qed.

Lemma asks_one_by_one client_Get data n :
  Forall (asks client_Get) (one_by_one client_Get data n).
Proof.
  unfold one_by_one. repeat (apply Forall_app; split).
  - induction (length data); by constructor.
  - by constructor.
  - induction data as [|r data IH]; [constructor|].
    cbn [flat_map]. apply Forall_app. split; [|done].
    unfold serve. destruct (match_by client_Get r); by repeat constructor.
  - by constructor.
  - induction (seq 0 n) as [|w ws IH]; [constructor|].
    cbn [flat_map]. apply Forall_app. split; [|done]. by repeat constructor.
  - by constructor.
Qed.

Lemma one_by_one_run client_Get data c :
  exists t rd,
    run (start data (S c)) (one_by_one client_Get data (S c))
    = Some (t, mkState (MDone rd) (mkDataMonitor DReturned [] true) (S c) (S c)
                 (mkResultMonitor rd 0 true) (replicate (S c) WExit)).
Proof.
  destruct (send_all data (start data (S c)) eq_refl eq_refl) as (s1 & H1 & Hs1).
  simpl in Hs1. unfold set_main, set_dataMonitor in Hs1. simpl in Hs1.
  destruct (serve_phase client_Get data MReceive true c [] (Z.of_nat (S c))
              (replicate c WRequest)) as (t3 & rd & H3); [lia|].
  destruct (leave_phase (S c) 0 MReceive [] true rd false) as [t5 H5].
  eexists _, rd. unfold one_by_one.
  eapply run_app; [exact H1|]. subst s1.
  eapply (run_app [ANoMoreData]); [reflexivity|].
  eapply run_app; [exact H3|].
  eapply (run_app [ADefault]); [reflexivity|].
  eapply run_app; [exact H5|].
  reflexivity.
Qed.

Section Completion.
Context `{!SortSliceSpec}.

(** The pipeline can always complete.  For every input, every number of
    workers that is at least one and every way the lookup service answers,
    the schedule in which main sends everything and one worker then serves
    the records one by one is a run of the program; it ends with main
    holding the final data, which is, up to order, the matches of the input
    records, in ascending order of [Hour], and from which the report is
    written. *)
Theorem pipeline_can_complete input n client_Get :
  0 < n ->
  exists t s l,
    run (start input n) (one_by_one client_Get input n) = Some (t, s) /\
    main s = MDone l /\
    l ≡ₚ omap (match_by client_Get) input /\
    ascending_Hour l /\
    report Created s = Some (writeOutputToFile Created l).
Proof.
  intros Hn. destruct n as [|c]; [lia|].
  destruct (one_by_one_run client_Get input c) as (t & rd & Hrun).
  eexists t, _, rd. split; [exact Hrun|]. split; [done|].
  pose proof (run_Run _ _ _ _ Hrun) as HR.
  pose proof (run_answered client_Get _ _ _ _ Hrun (asks_one_by_one _ _ _)) as Hans.
  destruct (final_data _ _ _ _ _ HR eq_refl) as (_ & _ & Hp & _).
  pose proof (Run_lookup_inv _ _ _ _ HR) as Hinv.
  destruct (delivery_in_order _ _ _ _ HR) as [_ Hd]. specialize (Hd eq_refl).
  unfold in_lookup in Hinv. cbn [workers] in Hinv.
  rewrite (nothing_in_lookup (replicate (S c) WExit)), app_nil_r, Hd in Hinv.
  2: { by intros w p [-> _]%lookup_replicate. }
  split; [|split; [|done]].
  - by rewrite Hp, (matches_answered client_Get), Hinv.
  - apply ascending_less_Hour. by destruct (Run_result_inv _ _ _ _ HR).
Qed.

End Completion.

(** *** [main] *)

(** [main] ends at once with the usage message when no argument is given;
    otherwise it takes the first argument as the input file, ignores further
    arguments, and sets the pipeline up with 10 workers: when it starts the
    pipeline, the input was read without error and the state is the initial
    one for that input and 10 workers. *)
Theorem main_outcomes fs (Args : list string) :
  (length Args < 2 ->
     main_func fs Args = FatalError "Usage: go run main.go <input file path>") /\
  (forall program inputFilePath more,
     Args = program :: inputFilePath :: more ->
     main_func fs Args = initializePipeline fs inputFilePath 10) /\
  (forall s, main_func fs Args = Running s ->
     exists data,
       ReadJSON fs (nth 1 Args EmptyString) = (data, None) /\
       s = start data 10).
Proof.
  unfold main_func. split; [|split].
  - intros Hl. by destruct (Nat.ltb_spec (length Args) 2); [|lia].
  - by intros program inputFilePath more ->.
  - intros s. destruct (length Args <? 2)%nat; [done|].
    unfold initializePipeline. simpl.
    destruct (ReadJSON fs _) as [data [err|]]; [done|].
    intros [= <-]. by exists data.
Qed.

(** *** The work of a run is bounded *)

Lemma workers_weight_insert (ws : list Worker) w x y :
  ws !! w = Some x ->
  workers_weight (<[w := y]> ws) + worker_weight x =
  workers_weight ws + worker_weight y.
Proof.
  revert w. induction ws as [|p ws IH]; intros [|w] Hw; simplify_eq/=; [lia|].
  specialize (IH _ Hw). lia.
Qed.

Lemma workers_weight_replicate n p :
  workers_weight (replicate n p) = n * worker_weight p.
Proof. induction n as [|n IH]; simpl; [done|]. rewrite IH. lia. Qed.

Lemma work_done_snoc t e :
  work_done (t ++ [e]) = work_done t + (if is_poll e then 0 else 1).
Proof.
  unfold work_done. rewrite List.filter_app, length_app. simpl.
  by destruct (is_poll e).
Qed.

Lemma work_step s e s' :
  step s e s' ->
  (if is_poll e then 0 else 1) + work_left s' <= work_left s.
Proof.
  intros Hst. destruct Hst; unfold work_left; simpl;
    repeat match goal with
      | H : main _ = _ |- _ => rewrite H
      | H : dm_pc _ = _ |- _ => rewrite H
      | H : dm_data _ = _ |- _ => rewrite H
      | H : requestChannel _ = _ |- _ => rewrite H
      | H : workers _ !! _ = Some _ |- context [workers_weight (<[_ := ?y]> _)] =>
          pose proof (workers_weight_insert _ _ _ y H); clear H
      end; simpl in *; rewrite ?length_app; simpl; try lia.
  destruct (worker_body_cases client_Get data) as [Hb|[c Hb]];
    rewrite Hb in *; simpl in *; lia.
Qed.

(** Apart from idle polls of the data monitor, a run is finite: the number
    of its steps that are not the idle [default] case, together with the
    measure of the work left in the state reached, never exceeds
    [6 * K + 5 * n + 3] for an input of [K] records and [n] workers; an
    idle poll leaves the state as it is. *)
Theorem work_is_bounded input n t s :
  Run (start input n) t s ->
  work_done t + work_left s <= 6 * length input + 5 * n + 3 /\
  (forall a s', exec s a = Some (EvPoll, s') -> s' = s).
Proof.
  intros Hrun. split.
  - revert t s Hrun.
    apply (Run_invariant
             (fun t s => work_done t + work_left s <= 6 * length input + 5 * n + 3)).
    + unfold work_left. simpl. rewrite workers_weight_replicate. simpl. lia.
    + intros t s e s' _ IH Hst. rewrite work_done_snoc.
      pose proof (work_step _ _ _ Hst). lia.
  - intros a s' Hex. apply exec_step in Hex. by inversion Hex.
Qed.

(** *** The final data after lost requests *)

Lemma polls_publish_nothing t :
  Forall (eq EvPoll) t -> published t = [] /\ done_signals t = [].
Proof.
  induction 1 as [|e t <- _ [IHp IHd]]; [done|]. by simpl.
Qed.

Lemma lost_requests_state n data :
  run (start data n)
    (requests_lost n ++ repeat ASendData (length data) ++ [ANoMoreData])
  = Some ((map EvRequest (seq 0 n) ++ repeat (EvTake false) n) ++
          map EvEnqueue data ++ [EvCloseInput],
          mkState MReceive (mkDataMonitor DSelect data true) 0 n
            (mkResultMonitor [] (Z.of_nat n) false) (replicate n WReceive)).
Proof.
  pose proof (requests_lost_run data n) as H1.
  set (s1 := mkState (MSend data) (mkDataMonitor DSelect [] false) 0 n
               (mkResultMonitor [] (Z.of_nat n) false) (replicate n WReceive)) in *.
  destruct (send_all data s1 eq_refl eq_refl) as (s2 & H2 & Hs2).
  eapply run_app; [exact H1|]. eapply run_app; [exact H2|]. by subst s2.
Qed.

(** C4, the defect: the final data is not always published.  With any
    number of workers and any input that is not empty, after the schedule in
    which every request is taken from the empty queue (lines 135 to 140) no
    worker has signalled, the counter of the result monitor is still the
    number of workers, and in every continuation it stays there: no worker
    ever signals, nothing is ever published, and main waits at
    [<-resultMonitorSendFinalDataChannel] for ever. *)
Theorem lost_requests_leave_final_data_unpublished n data :
  0 < n -> data <> [] ->
  exists t s,
    run (start data n)
      (requests_lost n ++ repeat ASendData (length data) ++ [ANoMoreData])
    = Some (t, s) /\
    forall t' s', Run s t' s' ->
      published (t ++ t') = [] /\
      done_signals (t ++ t') = [] /\
      workerCount (resultMonitor s') = Z.of_nat n /\
      main s' = MReceive.
Proof.
  intros Hn Hdata. pose proof (lost_requests_state n data) as Hrun.
  eexists _, _. split; [exact Hrun|]. intros t' s' Hr.
  pose proof (Run_count_inv _ _ _ _ (run_Run _ _ _ _ Hrun))
    as [_ Hsig _ _ _ Hpub _ _].
  simpl in Hsig, Hpub. rewrite count_replicate in Hsig. simpl in Hsig.
  assert (Hh : hung (mkState MReceive (mkDataMonitor DSelect data true) 0 n
                       (mkResultMonitor [] (Z.of_nat n) false)
                       (replicate n WReceive))).
  { split; simpl; try done; [|lia]. by intros w p [-> _]%lookup_replicate. }
  destruct (hung_Run _ _ _ Hh Hr) as [-> Hpolls].
  destruct (polls_publish_nothing _ Hpolls) as [Hp Hd].
  assert (Hnil : done_signals
                   ((map EvRequest (seq 0 n) ++ repeat (EvTake false) n) ++
                    map EvEnqueue data ++ [EvCloseInput]) = [])
    by (apply length_zero_iff_nil; lia).
  split; [|split; [|done]].
  - unfold published in *. by rewrite omap_app, Hpub, Hp.
  - unfold done_signals in *. by rewrite omap_app, Hnil, Hd.
Qed.

End Properties.

(** * The instance meets the contract of [sort.Slice] *)

Section InsertionSort.
Context {A : Type} (less : A -> A -> bool).

Lemma insert_perm x l : Example.insert less x l ≡ₚ x :: l.
Proof.
  induction l as [|y l IH]; simpl; [done|].
  destruct (less y x); [|done].
  rewrite IH. apply perm_swap.
Qed.

Lemma insertion_sort_perm l : Example.insertion_sort less l ≡ₚ l.
Proof.
  induction l as [|x l IH]; simpl; [done|].
  by rewrite insert_perm, IH.
Qed.

Hypothesis less_irrefl : forall a, less a a = false.
Hypothesis less_trans :
  forall a b c, less a b = true -> less b c = true -> less a c = true.
Hypothesis less_negtrans :
  forall a b c, less a b = false -> less b c = false -> less a c = false.

Lemma less_asym a b : less a b = true -> less b a = false.
Proof.
  intros Hab. destruct (less b a) eqn:Hba; [|done].
  by rewrite <- (less_irrefl a), (less_trans a b a).
Qed.

Lemma insert_ascending x l :
  ascending less l -> ascending less (Example.insert less x l).
Proof.
  unfold ascending. induction 1 as [|y l Hs IH Hall]; simpl.
  - by repeat constructor.
  - destruct (less y x) eqn:Hyx.
    + constructor; [done|]. rewrite insert_perm. constructor; [|done].
      by apply less_asym.
    + constructor; [by constructor|]. constructor; [done|].
      eapply Forall_impl; [exact Hall|]. simpl. eauto.
Qed.

Lemma insertion_sort_ascending l : ascending less (Example.insertion_sort less l).
Proof.
  induction l as [|x l IH]; simpl; [constructor|]. by apply insert_ascending.
Qed.

End InsertionSort.

Lemma stable_lib_spec : @SortSliceSpec Example.stable_lib.
Proof.
  split; simpl.
  - intros. apply insertion_sort_perm.
  - intros. by apply insertion_sort_ascending.
Qed.


(** * The theorems at examples *)

Import Example.
#[local] Existing Instance stable_lib.

(** The scenarios of the specification: a match is reported, a mismatch is
    not, and two matches are reported in ascending order of the hour in
    whichever order they reach the result monitor. *)
Example scenario_A :
  report_lines [record "2024-06-01" 19] 1 scenario_schedule =
  Some ["Date: 2024-06-01 Lat: 10.00 Lng: 20.00 Guess Hour: 19 Sunset Hour: 19";
        "Count: 1"].
Proof. vm_compute. reflexivity. Qed.

Example scenario_B :
  report_lines [record "2024-06-01" 19] 1 mismatch_schedule = Some ["Count: 0"].
Proof. vm_compute. reflexivity. Qed.

Example scenario_C :
  report_lines [record "2024-06-01" 5; record "2024-06-02" 3] 2
    (two_workers [ASubmit 0; ASubmit 1]) =
  Some ["Date: 2024-06-02 Lat: 10.00 Lng: 20.00 Guess Hour: 3 Sunset Hour: 3";
        "Date: 2024-06-01 Lat: 10.00 Lng: 20.00 Guess Hour: 5 Sunset Hour: 5";
        "Count: 2"] /\
  report_lines [record "2024-06-01" 5; record "2024-06-02" 3] 2
    (two_workers [ASubmit 1; ASubmit 0]) =
  report_lines [record "2024-06-01" 5; record "2024-06-02" 3] 2
    (two_workers [ASubmit 0; ASubmit 1]).
Proof. split; vm_compute; reflexivity. Qed.

Lemma lost_requests_witness :
  0 < 10 /\ [record "2024-06-01" 19] <> [] /\
  exists t s,
    run (H := stable_lib) (start [record "2024-06-01" 19] 10)
      (requests_lost 10 ++ repeat ASendData 1 ++ [ANoMoreData]) = Some (t, s) /\
    delivered t = [] /\
    dm_data (dataMonitor s) = [record "2024-06-01" 19] /\
    noMoreData (dataMonitor s) = true /\
    closed s = false /\
    forall t' s', Run (H := stable_lib) s t' s' -> s' = s /\ Forall (eq EvPoll) t'.
Proof.
  split; [lia|]. split; [discriminate|].
  apply (lost_requests_leave_input_undelivered (H := stable_lib) 10
           [record "2024-06-01" 19]); [lia|discriminate].
Defined.

Ltac run_example :=
  match goal with
  | |- context [run ?s0 ?schedule = Some _] =>
      let E := fresh "E" in
      let Hrun := fresh "Hrun" in
      eassert (E : run s0 schedule = Some (_, _)) by (vm_compute; reflexivity);
      pose proof (run_Run _ _ _ _ E) as Hrun
  end.

Lemma end_of_stream_witness :
  exists t s,
    run (H := stable_lib) (start [record "2024-06-01" 19] 1)
      closing_schedule = Some (t, s) /\
    closed s = true /\
    exec s (AClosed 0) = Some (EvNoMore 0, set_worker 0 WStatus s).
Proof.
  run_example. eexists _, _. split; [exact E|]. split; [reflexivity|].
  pose proof (end_of_stream (H := stable_lib) _ _ _ _ Hrun) as [_ Hd].
  destruct (Hd eq_refl eq_refl) as (_ & _ & Hc).
  exact (proj1 (Hc eq_refl 0) eq_refl).
Defined.

Lemma worker_countdown_witness :
  exists t s,
    run (H := stable_lib) (start [record "2024-06-01" 19] 1)
      scenario_schedule = Some (t, s) /\
    workerCount (resultMonitor s) = (1 - Z.of_nat (length (done_signals t)))%Z /\
    length (published t) <= 1.
Proof.
  run_example. eexists _, _. split; [exact E|].
  pose proof (worker_countdown (H := stable_lib) _ _ _ _ Hrun) as (Hc & _ & _ & Hp & _).
  exact (conj Hc Hp).
Defined.



Lemma submitted_iff_hours_equal_witness :
  exists t s,
    run (H := stable_lib) (start [record "2024-06-01" 19] 1)
      scenario_schedule = Some (t, s) /\
    submitted t ++ pending s ≡ₚ matches t /\
    Forall (fun c => SunsetHour c = CHour c) (pending s ++ rm_data (resultMonitor s)).
Proof.
  run_example. eexists _, _. split; [exact E|].
  pose proof (submitted_iff_hours_equal (H := stable_lib) (H0 := stable_lib_spec)
                _ _ _ _ Hrun) as (_ & Hm & _ & Hf & _).
  exact (conj Hm Hf).
Defined.

Lemma lookup_failure_contained_witness :
  exists t s l,
    run (H := stable_lib) (start [record "2024-06-01" 19] 1)
      failing_schedule = Some (t, s) /\
    main s = MDone l /\ l ≡ₚ matches t /\
    report Created s = Some (writeOutputToFile Created l) /\
    length l = length (matches t).
Proof.
  run_example. eexists _, _, _. split; [exact E|]. split; [reflexivity|].
  exact (proj2 (proj2 (lookup_failure_contained (H := stable_lib)
                         (H0 := stable_lib_spec) _ _ _ _ Hrun)) _ eq_refl).
Defined.

Lemma held_data_ascending_witness :
  exists t s,
    run (H := stable_lib)
      (start [record "2024-06-01" 19;
              record "2024-06-02" 19] 1)
      tie_schedule = Some (t, s) /\
    ascending_Hour (rm_data (resultMonitor s)).
Proof.
  run_example. eexists _, _. split; [exact E|].
  exact (proj1 (held_data_ascending (H := stable_lib) (H0 := stable_lib_spec)
                  _ _ _ _ Hrun)).
Defined.

(** C7, the counterexample: the set-up with no workers is not rejected. *)
Lemma zero_workers_not_rejected :
  ~ (forall (L : GoLib) fs inputFilePath,
       rejected (initializePipeline fs inputFilePath 0) = true).
Proof.
  intros Hc. specialize (Hc stable_lib fs "scenario.json").
  vm_compute in Hc. discriminate.
Qed.

Lemma zero_workers_run_witness :
  ReadJSON (H := stable_lib) fs "scenario.json" =
    ([record "2024-06-01" 19], None) /\
  initializePipeline (H := stable_lib) fs "scenario.json" 0 =
    Running (start [record "2024-06-01" 19] 0) /\
  exists t s,
    run (start [record "2024-06-01" 19] 0)
      (repeat ASendData 1 ++ [ANoMoreData; AFinal]) = Some (t, s) /\
    main s = MDone [] /\
    dm_data (dataMonitor s) = [record "2024-06-01" 19] /\
    closed s = false /\
    report Created s = Some (Content ("Count: 0" +:+ LF)).
Proof.
  split; [vm_compute; reflexivity|].
  pose proof (zero_workers_run (H := stable_lib) fs "scenario.json"
                [record "2024-06-01" 19] eq_refl) as (Hi & _ & He).
  exact (conj Hi He).
Defined.

Lemma report_format_witness :
  lines "Date: 2024-06-01 Lat: 10.00 Lng: 20.00 Guess Hour: 19 Sunset Hour: 19
Count: 1
" = ["Date: 2024-06-01 Lat: 10.00 Lng: 20.00 Guess Hour: 19 Sunset Hour: 19";
     "Count: 1"].
Proof.
  refine (proj1 (proj2 (report_format (H := stable_lib)
            [mkComputedStructure "2024-06-01" ten twenty 19%Z 19%Z])
          _ _ eq_refl)).
  repeat constructor.
Defined.

Lemma ReadJSON_tests_no_range_witness :
  exists data,
    ReadJSON (H := stable_lib) fs "late.json" = (data, None) /\
    map Hour data = [99%Z] /\
    initializePipeline (H := stable_lib) fs "late.json" 10
      = Running (start data 10).
Proof.
  destruct (ReadJSON_tests_no_range (H := stable_lib) fs "late.json" late_text
              [mkEntry "2024-06-01" "10" "20" 99] eq_refl eq_refl)
    as (data & Hr & _ & Hh & Hi & _).
  - repeat constructor; (simpl; lia) || (by eexists).
  - exists data. split; [done|]. split; [done|]. by apply (Hi 10%Z).
Defined.

(** * The further properties at examples *)

Lemma handed_out_in_input_order_witness :
  exists t s,
    run (start [record "2024-06-01" 19; record "2024-06-02" 19] 1) tie_schedule
      = Some (t, s) /\
    (delivered t).*2 = [record "2024-06-01" 19; record "2024-06-02" 19].
Proof.
  run_example. eexists _, _. split; [exact E|].
  exact (proj1 (proj2 (proj2 (proj2 (handed_out_in_input_order _ _ _ _ Hrun)))
                  eq_refl)).
Defined.

Lemma request_send_never_blocks_witness :
  exists t s,
    run (start [record "2024-06-01" 19] 10) (requests_lost 10) = Some (t, s) /\
    requestChannel s <= 10.
Proof.
  run_example. eexists _, _. split; [exact E|].
  exact (proj1 (request_send_never_blocks _ _ _ _ Hrun)).
Defined.

Lemma response_has_receiver_witness :
  exists t s,
    run (start [record "2024-06-01" 19] 1) [ASendData; ARequest 0; ATakeRequest]
      = Some (t, s) /\
    dm_pc (dataMonitor s) = DRespond /\
    exists w data0 rest,
      dm_data (dataMonitor s) = data0 :: rest /\
      workers s !! w = Some WReceive /\
      exec s (ARespond w) =
      Some (EvDeliver w data0,
            set_worker w (WLookup data0)
              (set_dataMonitor
                 (mkDataMonitor DSelect rest (noMoreData (dataMonitor s))) s)).
Proof.
  run_example. eexists _, _. split; [exact E|]. split; [reflexivity|].
  exact (response_has_receiver _ _ _ _ Hrun eq_refl).
Defined.

Lemma worker_leaves_after_end_witness :
  exists t s,
    run (start [record "2024-06-01" 19] 1) (closing_schedule ++ [AClosed 0])
      = Some (t, s) /\
    workers s !! 0 = Some WStatus /\
    closed s = true /\ noMoreData (dataMonitor s) = true /\
    (delivered t).*2 = [record "2024-06-01" 19].
Proof.
  run_example. eexists _, _. split; [exact E|]. split; [reflexivity|].
  exact (proj1 (worker_leaves_after_end _ _ _ _ 0 Hrun) (or_introl eq_refl)).
Defined.

Lemma nothing_runs_after_final_data_witness :
  exists t s l,
    run (start [record "2024-06-01" 19] 1) scenario_schedule = Some (t, s) /\
    0 < 1 /\ main s = MDone l /\ forall a, exec s a = None.
Proof.
  run_example. eexists _, _, _. split; [exact E|]. split; [lia|].
  split; [reflexivity|].
  exact (proj2 (proj2 (proj2
           (nothing_runs_after_final_data _ _ _ _ _ Hrun (le_n 1) eq_refl)))).
Defined.

Lemma only_lost_requests_block_witness :
  exists t s,
    run (start [record "2024-06-01" 19] 1) [ARequest 0; ATakeRequest]
      = Some (t, s) /\
    0 < 1 /\
    ((exists a e s', exec s a = Some (e, s') /\ e <> EvPoll) \/
     (exists l, main s = MDone l) \/ hung s).
Proof.
  run_example. eexists _, _. split; [exact E|]. split; [lia|].
  exact (only_lost_requests_block _ _ _ _ Hrun (le_n 1)).
Defined.

Lemma each_record_looked_up_once_witness :
  exists t s,
    run (start [record "2024-06-01" 19; record "2024-06-02" 19] 1) tie_schedule
      = Some (t, s) /\
    looked_up t ++ in_lookup s ≡ₚ (delivered t).*2.
Proof.
  run_example. eexists _, _. split; [exact E|].
  exact (proj1 (each_record_looked_up_once (H0 := stable_lib_spec) _ _ _ _ Hrun)).
Defined.

Lemma final_data_independent_of_schedule_witness :
  exists t s l,
    run (start [record "2024-06-01" 19; record "2024-06-02" 19] 1) tie_schedule
      = Some (t, s) /\
    0 < 1 /\
    Forall (answered_by (sunset_at "7:14:32 PM")) t /\
    main s = MDone l /\
    l ≡ₚ omap (match_by (sunset_at "7:14:32 PM"))
           [record "2024-06-01" 19; record "2024-06-02" 19] /\
    ascending_Hour l.
Proof.
  run_example.
  assert (Hans : Forall (answered_by (sunset_at "7:14:32 PM")) _)
    by (apply (run_answered _ _ _ _ _ E); repeat constructor).
  eexists _, _, _. split; [exact E|]. split; [lia|]. split; [exact Hans|].
  split; [reflexivity|].
  exact (final_data_independent_of_schedule (H0 := stable_lib_spec)
           _ _ _ _ _ _ Hrun (le_n 1) Hans eq_refl).
Defined.

Lemma unknown_and_null_members_skipped_witness :
  decode_Structure
    (JObject [("comment", JString "no field"); ("hour", JNull)])
  = inl zero_Structure.
Proof.
  exact (proj1 (proj2 (unknown_and_null_members_skipped
                         [("comment", JString "no field"); ("hour", JNull)]))
           eq_refl).
Defined.

Lemma one_bad_hour_rejects_input_witness :
  exists err,
    ReadJSON (H := BadInput.lib) BadInput.fs "half.json" = ([], Some err) /\
    initializePipeline (H := BadInput.lib) BadInput.fs "half.json" 10
      = FatalError ("Error: " +:+ err).
Proof.
  apply (one_bad_hour_rejects_input (H := BadInput.lib) BadInput.fs "half.json"
           "the text of the array" _
           [("date", JString "2024-06-02"); ("hour", JNumber "19.5")]
           "hour" "19.5" 10 eq_refl eq_refl).
  - apply list_elem_of_further, list_elem_of_here.
  - apply list_elem_of_further, list_elem_of_here.
  - reflexivity.
  - reflexivity.
  - lia.
Defined.

Lemma setup_failures_witness :
  initializePipeline fs "scenario.json" (-1) = Panic "makechan: size out of range" /\
  initializePipeline fs "missing.json" 10 =
    FatalError ("Error: " +:+ "open: no such file or directory").
Proof.
  pose proof (setup_failures fs "scenario.json" (-1)) as (Hp & _ & _).
  pose proof (setup_failures fs "missing.json" 10) as (_ & _ & Hf).
  split; [apply Hp; lia|]. by apply (Hf ltac:(lia) []).
Defined.

Lemma pipeline_can_complete_witness :
  0 < 2 /\
  exists t s l,
    run (start [record "2024-06-01" 19; record "2024-06-02" 5] 2)
      (one_by_one (sunset_at "7:14:32 PM")
         [record "2024-06-01" 19; record "2024-06-02" 5] 2) = Some (t, s) /\
    main s = MDone l /\
    l ≡ₚ omap (match_by (sunset_at "7:14:32 PM"))
           [record "2024-06-01" 19; record "2024-06-02" 5] /\
    ascending_Hour l /\
    report Created s = Some (writeOutputToFile Created l).
Proof.
  split; [lia|].
  apply (pipeline_can_complete (H0 := stable_lib_spec)); lia.
Defined.

Lemma main_outcomes_witness :
  main_func fs ["main"] = FatalError "Usage: go run main.go <input file path>" /\
  main_func fs ["main"; "scenario.json"; "ignored"] =
    initializePipeline fs "scenario.json" 10.
Proof.
  pose proof (main_outcomes fs ["main"]) as (Hu & _ & _).
  pose proof (main_outcomes fs ["main"; "scenario.json"; "ignored"]) as (_ & Hi & _).
  split; [apply Hu; simpl; lia|]. by apply (Hi "main" "scenario.json" ["ignored"]).
Defined.

Lemma work_is_bounded_witness :
  exists t s,
    run (start [record "2024-06-01" 19] 1) scenario_schedule = Some (t, s) /\
    work_done t + work_left s <= 6 * 1 + 5 * 1 + 3.
Proof.
  run_example. eexists _, _. split; [exact E|].
  exact (proj1 (work_is_bounded _ _ _ _ Hrun)).
Defined.

Lemma lost_requests_leave_final_data_unpublished_witness :
  0 < 10 /\ [record "2024-06-01" 19] <> [] /\
  exists t s,
    run (start [record "2024-06-01" 19] 10)
      (requests_lost 10 ++ repeat ASendData 1 ++ [ANoMoreData]) = Some (t, s) /\
    forall t' s', Run s t' s' ->
      published (t ++ t') = [] /\
      done_signals (t ++ t') = [] /\
      workerCount (resultMonitor s') = 10%Z /\
      main s' = MReceive.
Proof.
  split; [lia|]. split; [discriminate|].
  apply (lost_requests_leave_final_data_unpublished 10 [record "2024-06-01" 19]);
    [lia|discriminate].
Defined.
